(** * Railway OCR service: the [POST /ocr] handler and the page recognizer

    A shallow embedding of [src/index.js] (lines 41-164; the same handler is
    found again, unchanged, in the second copy of the file).

    - JavaScript strings are sequences of UTF-16 code units ([list N]);
      [trim], [includes], [join] and template literals are written out.
    - The handler is [async] code with [try]/[catch]: it is embedded in a
      state-and-exception monad [M].  The state holds the temporary files
      present on disk and the sequence of calls made to the collaborators
      (pdf-parse, pdf2pic, tesseract.js, fs-extra, the response object).
    - What the collaborators answer is not in the source: it is a parameter,
      the record [World].
    - The larger copy of the service adds [POST /extract-concepts] and
      [POST /chat]: they are embedded in the modules [Json], [Regex] and [Ai],
      with the two regular expressions of the source run by a small
      backtracking matcher. *)

From Corelib Require PrimFloat.
From Stdlib Require Import List NArith Ascii String Decimal DecimalString DecimalNat Lia Bool.
From stdpp Require Import base gmap sets list.

#[local] Set Warnings "-clear-no-such-hyp,-register-all".

Local Open Scope N_scope.
Local Open Scope nat_scope.

(** ** JavaScript strings *)

Module Js.

(** A string is its sequence of UTF-16 code units; [.length] is [length]. *)
Definition jsstring := list N.

(** An ASCII literal of the source. *)
Definition lit (s : string) : jsstring :=
  map N_of_ascii (list_ascii_of_string s).

(** WhiteSpace and LineTerminator code points of ECMAScript, the ones
    [String.prototype.trim] strips.  All lie in the basic plane, so a test on
    code units is exact. *)
Definition is_ws (c : N) : bool :=
  ((9 <=? c) && (c <=? 13) || (c =? 32) || (c =? 160) || (c =? 5760)
   || (8192 <=? c) && (c <=? 8202)
   || (c =? 8232) || (c =? 8233) || (c =? 8239) || (c =? 8287)
   || (c =? 12288) || (c =? 65279))%N.

Fixpoint trimStart (s : jsstring) : jsstring :=
  match s with
  | c :: s' => if is_ws c then trimStart s' else s
  | [] => []
  end.

Definition trimEnd (s : jsstring) : jsstring := rev (trimStart (rev s)).

(** [s.trim()] *)
Definition trim (s : jsstring) : jsstring := trimEnd (trimStart s).

Fixpoint startsWith (s p : jsstring) : bool :=
  match p, s with
  | [], _ => true
  | _ :: _, [] => false
  | a :: p', b :: s' => (a =? b)%N && startsWith s' p'
  end.

(** [s.includes(sub)] *)
Fixpoint includes (s sub : jsstring) : bool :=
  startsWith s sub ||
  match s with
  | [] => false
  | _ :: s' => includes s' sub
  end.

(** [parts.join(sep)] *)
Fixpoint join (sep : jsstring) (parts : list jsstring) : jsstring :=
  match parts with
  | [] => []
  | [x] => x
  | x :: rest => x ++ sep ++ join sep rest
  end.

(** A non-negative integer inside a template literal: its decimal digits. *)
Definition of_nat (n : nat) : jsstring :=
  lit (NilEmpty.string_of_uint (Nat.to_uint n)).

(** Truthiness of a string: only the empty string is falsy. *)
Definition truthy (s : jsstring) : bool :=
  match s with [] => false | _ :: _ => true end.

Definition LF : jsstring := [10%N].

End Js.

Import Js.

(** ** Requests, responses and the calls made to the collaborators *)

Definition path := jsstring.

(** A thrown value, through the only thing the handler reads of it:
    [error.message]. *)
Definition exn := jsstring.

(** [req.file], as multer's disk storage fills it. *)
Record File := mkFile {
  file_path : path;
  file_originalname : jsstring
}.

(** [req]: the uploaded file if there is one, and [req.body.moduleId]
    ([None] when the field is absent). *)
Record request := mkRequest {
  req_file : option File;
  req_body_moduleId : option jsstring
}.

(** The JSON object of the success response (lines 142-149). *)
Record SuccessBody := mkSuccessBody {
  success : bool;
  text : jsstring;
  filename : jsstring;
  moduleId : jsstring;
  textLength : nat;
  method : jsstring
}.

Inductive response :=
| JsonError (status : nat) (error : jsstring) (details : option jsstring)
| JsonOk (body : SuccessBody).

(** The object [pdfParse] resolves to; [text] may be [undefined]. *)
Record PdfData := mkPdfData { pdf_text : option jsstring }.

Inductive event :=
| EvReadFile (p : path)
| EvPdfParse (buf : list N)
| EvBulk (pdfPath : path)
| EvCreateWorker
| EvLoadLanguage (lang : jsstring)
| EvInitialize (lang : jsstring)
| EvSetParameters (whitelist pageseg_mode : jsstring)
| EvRecognize (imagePath : path)
| EvTerminate
| EvRemove (p : path)
| EvRespond (r : response).

(** What one tesseract worker does, call site by call site of
    [extractTextWithTesseract]: every call site runs at most once per
    invocation, so one answer per site is fully general.  [None] is a call that
    resolves, [Some e] one that rejects with [e]. *)
Record Worker := mkWorker {
  w_createWorker : option exn;
  w_loadLanguage : option exn;
  w_initialize : option exn;
  w_setParameters : option exn;
  w_recognize : exn + jsstring;
  w_terminate_try : option exn;
  w_terminate_catch : option exn
}.

(** The collaborators of one request.  [tesseract i] is the worker created for
    the page of index [i]; [remove_rejects] tells, from the calls made so far,
    whether a call of [fs.remove] rejects; [bulk_leftovers] are the page images
    a conversion that rejects has written before it rejects. *)
Record World := mkWorld {
  readFile_result : path -> exn + list N;
  pdfParse_result : list N -> exn + PdfData;
  bulk_result : path -> exn + list path;
  tesseract : nat -> Worker;
  remove_rejects : list event -> path -> bool;
  bulk_leftovers : path -> list path
}.

(** ** The monad: temporary files, calls made, exceptions *)

Record State := mkState {
  files : gset path;
  log : list event
}.

Definition M (A : Type) : Type := State -> (exn + A) * State.

Definition ret {A} (a : A) : M A := fun st => (inr a, st).

Definition throw {A} (e : exn) : M A := fun st => (inl e, st).

Definition bind {A B} (m : M A) (k : A -> M B) : M B :=
  fun st =>
    match m st with
    | (inr a, st') => k a st'
    | (inl e, st') => (inl e, st')
    end.

(** [try { m } catch (e) { h e }] *)
Definition try_catch {A} (m : M A) (h : exn -> M A) : M A :=
  fun st =>
    match m st with
    | (inr a, st') => (inr a, st')
    | (inl e, st') => h e st'
    end.

Notation "'let*' x ':=' m 'in' k" := (bind m (fun x => k))
  (at level 10, x binder, m at level 100, k at level 200,
   format "'[v' 'let*'  x  ':='  m  'in' '/' k ']'").

Definition emit (ev : event) : M unit :=
  fun st => (inr tt, mkState (files st) (log st ++ [ev])).

(** A call that resolves or rejects as the world says. *)
Definition settle {A} (r : exn + A) : M A :=
  match r with
  | inl e => throw e
  | inr a => ret a
  end.

Definition settle_unit (r : option exn) : M unit :=
  match r with
  | Some e => throw e
  | None => ret tt
  end.

(** ** The program *)

Section Program.

Variable w : World.

(** *** Collaborators *)

Definition fs_readFile (p : path) : M (list N) :=
  let* _ := emit (EvReadFile p) in
  settle (readFile_result w p).

Definition pdfParse (buf : list N) : M PdfData :=
  let* _ := emit (EvPdfParse buf) in
  settle (pdfParse_result w buf).

(** [convert.bulk(-1, ...)] followed by [results.map(result => result.path)]:
    when the conversion resolves, the page images it returns are on disk; when
    it rejects, the pages it had written by then are on disk and no path is
    returned. *)
Definition pdf2pic_bulk (pdfPath : path) : M (list path) :=
  let* _ := emit (EvBulk pdfPath) in
  match bulk_result w pdfPath with
  | inr paths =>
      fun st => (inr paths, mkState (files st ∪ list_to_set paths) (log st))
  | inl e =>
      fun st =>
        (inl e,
         mkState (files st ∪ list_to_set (bulk_leftovers w pdfPath)) (log st))
  end.

(** [await fs.remove(p).catch(() => {})]: the file is gone unless the removal
    rejects; the rejection is dropped by the empty handler. *)
Definition fs_remove_quiet (p : path) : M unit :=
  fun st =>
    let files' :=
      if remove_rejects w (log st) p then files st else files st ∖ {[p]} in
    (inr tt, mkState files' (log st ++ [EvRemove p])).

(** *** Lines 42-61: [extractTextWithTesseract] *)

Definition tessedit_char_whitelist : jsstring :=
  lit "ABCDEFGHIJKLMNOPQRSTUVWXYZabcdefghijklmnopqrstuvwxyz0123456789 .,;:!?-()[]{}/"
    ++ [34%N] ++ lit "'".

Definition tessedit_pageseg_mode : jsstring := lit "1".

Definition eng : jsstring := lit "eng".

Definition extractTextWithTesseract (k : Worker) (imagePath : path) : M jsstring :=
  let* _ := emit EvCreateWorker in
  let* _ := settle_unit (w_createWorker k) in
  try_catch
    (let* _ := emit (EvLoadLanguage eng) in
     let* _ := settle_unit (w_loadLanguage k) in
     let* _ := emit (EvInitialize eng) in
     let* _ := settle_unit (w_initialize k) in
     let* _ := emit (EvSetParameters tessedit_char_whitelist tessedit_pageseg_mode) in
     let* _ := settle_unit (w_setParameters k) in
     let* _ := emit (EvRecognize imagePath) in
     let* text := settle (w_recognize k) in
     let* _ := emit EvTerminate in
     let* _ := settle_unit (w_terminate_try k) in
     ret text)
    (fun error =>
       let* _ := emit EvTerminate in
       let* _ := settle_unit (w_terminate_catch k) in
       throw error).

(** *** Lines 64-76: [convertPdfToImages] *)

Definition convertPdfToImages (pdfPath : path) : M (list path) :=
  pdf2pic_bulk pdfPath.

(** *** Lines 79-164: the handler of [POST /ocr] *)

(** [`--- Page ${i + 1} ---\n${pageText.trim()}`] *)
Definition page_entry (i : nat) (pageText : jsstring) : jsstring :=
  lit "--- Page " ++ of_nat (i + 1) ++ lit " ---" ++ LF ++ trim pageText.

(** The loop of lines 111-121, from index [i] on: [imagePaths] is what is left
    of the array from that index, [ocrResults] the array built so far. *)
Fixpoint ocr_loop (imagePaths : list path) (i : nat) (ocrResults : list jsstring)
  : M (list jsstring) :=
  match imagePaths with
  | [] => ret ocrResults
  | imagePath :: rest =>
      let* ocrResults' :=
        try_catch
          (let* pageText := extractTextWithTesseract (tesseract w i) imagePath in
           if 10 <? length (trim pageText)
           then ret (ocrResults ++ [page_entry i pageText])
           else ret ocrResults)
          (fun ocrError => ret ocrResults) in
      ocr_loop rest (S i) ocrResults'
  end.

(** Lines 126-128. *)
Fixpoint remove_images (imagePaths : list path) : M unit :=
  match imagePaths with
  | [] => ret tt
  | imagePath :: rest =>
      let* _ := fs_remove_quiet imagePath in
      remove_images rest
  end.

(** Lines 92-101: the [try] block of the basic extraction. *)
Definition basic_extraction (pdfPath : path) : M jsstring :=
  let* pdfBuffer := fs_readFile pdfPath in
  let* pdfData := pdfParse pdfBuffer in
  match pdf_text pdfData with
  | Some t =>
      if truthy t && (100 <? length (trim t))
      then ret (trim t)
      else throw (lit "Basic extraction insufficient, trying OCR")
  | None => throw (lit "Basic extraction insufficient, trying OCR")
  end.

(** Lines 102-129: the [catch] block, the recognition pipeline. *)
Definition ocr_extraction (pdfPath : path) : M jsstring :=
  let* imagePaths := convertPdfToImages pdfPath in
  let* ocrResults := ocr_loop imagePaths 0 [] in
  let extractedText := join (LF ++ LF) ocrResults in
  let* _ := remove_images imagePaths in
  ret extractedText.

(** Lines 91-129: the value of [extractedText] when line 131 is reached. *)
Definition extract_text (pdfPath : path) : M jsstring :=
  try_catch (basic_extraction pdfPath) (fun basicError => ocr_extraction pdfPath).

(** [res.json(...)] / [res.status(...).json(...)] *)
Definition respond (r : response) : M response :=
  let* _ := emit (EvRespond r) in
  ret r.

(** Line 134: [!extractedText || extractedText.trim().length < 50] *)
Definition extraction_failed (extractedText : jsstring) : bool :=
  negb (truthy extractedText) || (length (trim extractedText) <? 50).

(** Line 86: [req.body.moduleId || 'unknown'] *)
Definition moduleId_or_default (m : option jsstring) : jsstring :=
  match m with
  | Some s => if truthy s then s else lit "unknown"
  | None => lit "unknown"
  end.

(** Lines 142-149. *)
Definition success_body (f : File) (moduleId extractedText : jsstring) : SuccessBody :=
  {| success := true;
     text := trim extractedText;
     filename := file_originalname f;
     moduleId := moduleId;
     textLength := length (trim extractedText);
     method := if includes extractedText (lit "Basic extraction")
               then lit "basic" else lit "ocr" |}.

Definition ocr_handler (req : request) : M response :=
  try_catch
    match req_file req with
    | None => respond (JsonError 400 (lit "No PDF file uploaded") None)
    | Some f =>
        let pdfPath := file_path f in
        let moduleId := moduleId_or_default (req_body_moduleId req) in
        let* extractedText := extract_text pdfPath in
        let* _ := fs_remove_quiet pdfPath in
        if extraction_failed extractedText
        then respond (JsonError 500 (lit "Text extraction failed")
                        (Some (lit "Unable to extract meaningful text from PDF")))
        else respond (JsonOk (success_body f moduleId extractedText))
    end
    (fun error =>
       let* _ :=
         match req_file req with
         | Some f =>
             if truthy (file_path f) then fs_remove_quiet (file_path f) else ret tt
         | None => ret tt
         end in
       respond (JsonError 500 (lit "PDF processing failed") (Some error))).

End Program.

(** ** Outcomes of the pipeline stages

    The stages below do not read the state they start from (see
    [extractTextWithTesseract_run], [basic_extraction_run], [ocr_loop_run]):
    their outcome is read off a run from the empty state. *)

Definition st_init : State := mkState ∅ [].

(** What [extractTextWithTesseract] returns ([inr text]) or raises ([inl e])
    with worker [k], and the calls it makes on the way. *)
Definition recognized (k : Worker) : exn + jsstring :=
  fst (extractTextWithTesseract k [] st_init).

Definition worker_calls (k : Worker) (imagePath : path) : list event :=
  log (snd (extractTextWithTesseract k imagePath st_init)).

(** What the [try] block of lines 92-101 evaluates to: [inr t] when the basic
    extraction is accepted, with [t] the trimmed text of the PDF. *)
Definition basic_result (w : World) (pdfPath : path) : exn + jsstring :=
  fst (basic_extraction w pdfPath st_init).

Definition basic_calls (w : World) (pdfPath : path) : list event :=
  log (snd (basic_extraction w pdfPath st_init)).

(** Line 115: the per-page acceptance check. *)
Definition page_accepted (pageText : jsstring) : bool :=
  10 <? length (trim pageText).

(** What the iteration of index [i] pushes on [ocrResults]. *)
Definition page_pushes (tess : nat -> Worker) (i : nat) : list jsstring :=
  match recognized (tess i) with
  | inr pageText => if page_accepted pageText then [page_entry i pageText] else []
  | inl _ => []
  end.

(** What the iterations [i], ..., [i + n - 1] push, and the calls they make. *)
Definition loop_pushes (tess : nat -> Worker) (i n : nat) : list jsstring :=
  flat_map (page_pushes tess) (seq i n).

Fixpoint loop_calls (tess : nat -> Worker) (imagePaths : list path) (i : nat)
  : list event :=
  match imagePaths with
  | [] => []
  | imagePath :: rest => worker_calls (tess i) imagePath ++ loop_calls tess rest (S i)
  end.

(** The files left by lines 126-128, from the files and calls before them. *)
Fixpoint files_after_removes (w : World) (imagePaths : list path)
    (fs : gset path) (calls : list event) : gset path :=
  match imagePaths with
  | [] => fs
  | p :: rest =>
      files_after_removes w rest
        (if remove_rejects w calls p then fs else fs ∖ {[p]})
        (calls ++ [EvRemove p])
  end.

(** The files left by one [fs.remove(p).catch(() => {})]. *)
Definition files_after_remove (w : World) (p : path)
    (fs : gset path) (calls : list event) : gset path :=
  if remove_rejects w calls p then fs else fs ∖ {[p]}.

(** The value of [extractedText] after line 123, for [n] page images. *)
Definition aggregate (tess : nat -> Worker) (n : nat) : jsstring :=
  join (LF ++ LF) (loop_pushes tess 0 n).

(** The response of lines 134-149 for the final candidate [extractedText]. *)
Definition final_response (f : File) (moduleId extractedText : jsstring) : response :=
  if extraction_failed extractedText
  then JsonError 500 (lit "Text extraction failed")
         (Some (lit "Unable to extract meaningful text from PDF"))
  else JsonOk (success_body f moduleId extractedText).

(** The response of lines 159-162. *)
Definition processing_failed (e : exn) : response :=
  JsonError 500 (lit "PDF processing failed") (Some e).

(** The response of line 82. *)
Definition bad_request : response :=
  JsonError 400 (lit "No PDF file uploaded") None.

(** The page images the renderer returned for the upload [f], the ones the
    handler holds a path of: the renderer runs only when the basic extraction
    is not accepted, and returns paths only when it resolves. *)
Definition rendered_images (w : World) (f : File) : list path :=
  match basic_result w (file_path f), bulk_result w (file_path f) with
  | inl _, inr imagePaths => imagePaths
  | _, _ => []
  end.

(** The page images written by a rendering that then rejected: the handler
    gets no path of them. *)
Definition leftover_pages (w : World) (req : request) : list path :=
  match req_file req with
  | Some f =>
      match basic_result w (file_path f), bulk_result w (file_path f) with
      | inl _, inl _ => bulk_leftovers w (file_path f)
      | _, _ => []
      end
  | None => []
  end.

(** The temporary files the handler knows of: the upload and the page images
    the renderer returned. *)
Definition artifacts (w : World) (req : request) : list path :=
  match req_file req with
  | Some f => file_path f :: rendered_images w f
  | None => []
  end.


(** ** The specification's vocabulary *)

Module Spec.

(** The page-boundary marker of the page of 1-based ordinal [n]. *)
Definition page_marker (n : nat) : jsstring :=
  lit "--- Page " ++ of_nat n ++ lit " ---".

(** A blank line between two pages. *)
Definition blank_line : jsstring := LF ++ LF.

(** The pages the recognizer returned a text for, among the first [n], each
    with its 0-based index, in page order. *)
Definition recognized_pages (tess : nat -> Worker) (n : nat) : list (nat * jsstring) :=
  flat_map (fun i => match recognized (tess i) with
                     | inr pageText => [(i, pageText)]
                     | inl _ => []
                     end) (seq 0 n).

(** 4.1 (c): a page is accepted only if its trimmed length exceeds 10. *)
Definition accepted (page : nat * jsstring) : bool :=
  10 <? length (trim (snd page)).

(** 4.1 (d): an accepted page, prefixed with the marker of its ordinal. *)
Definition marked (page : nat * jsstring) : jsstring :=
  page_marker (fst page + 1) ++ LF ++ trim (snd page).

(** 4.1 (c)-(d): the aggregate, written after the specification's words. *)
Definition spec_aggregate (pages : list (nat * jsstring)) : jsstring :=
  join blank_line (map marked (List.filter accepted pages)).

(** No whitespace at either end. *)
Definition no_leading_ws (s : jsstring) : Prop :=
  match s with
  | c :: _ => is_ws c = false
  | [] => True
  end.

Definition no_trailing_ws (s : jsstring) : Prop := no_leading_ws (rev s).

(** The accepted-character set of 4.2: ASCII letters, digits, the space and
    common punctuation. *)
Definition ascii_letter (c : N) : bool :=
  ((65 <=? c) && (c <=? 90) || (97 <=? c) && (c <=? 122))%N.

Definition ascii_digit (c : N) : bool := ((48 <=? c) && (c <=? 57))%N.

Definition ascii_punctuation (c : N) : bool :=
  ((c =? 32) || (33 <=? c) && (c <=? 47) || (58 <=? c) && (c <=? 64)
   || (91 <=? c) && (c <=? 96) || (123 <=? c) && (c <=? 126))%N.

Definition profile_char (c : N) : bool :=
  ascii_letter c || ascii_digit c || ascii_punctuation c.

(** A recognition call: anything the renderer or the recognizer is asked. *)
Definition recognition_call (ev : event) : bool :=
  match ev with
  | EvBulk _ | EvCreateWorker | EvLoadLanguage _ | EvInitialize _
  | EvSetParameters _ _ | EvRecognize _ | EvTerminate => true
  | _ => false
  end.


End Spec.

Import Spec.

(** The calls that bind a worker to the recognition profile and use it, in
    the order of lines 46-53. *)
Definition profile_calls (imagePath : path) : list event :=
  [EvLoadLanguage eng; EvInitialize eng;
   EvSetParameters tessedit_char_whitelist tessedit_pageseg_mode;
   EvRecognize imagePath].

(** How many of the four calls of lines 46-53 an invocation makes on the
    worker it created: each is made once the ones before it have resolved. *)
Definition profile_calls_made (k : Worker) : nat :=
  match w_loadLanguage k, w_initialize k, w_setParameters k with
  | Some _, _, _ => 1
  | None, Some _, _ => 2
  | None, None, Some _ => 3
  | None, None, None => 4
  end.

(** How many times [terminate] is called on a created worker: at line 54 or
    at line 58, and at both when the call of line 54 rejects. *)
Definition terminate_calls (k : Worker) : nat :=
  match w_loadLanguage k, w_initialize k, w_setParameters k,
        w_recognize k, w_terminate_try k with
  | None, None, None, inr _, Some _ => 2
  | _, _, _, _, _ => 1
  end.

(** A call made on a tesseract worker, its creation included. *)
Definition worker_call (ev : event) : bool :=
  match ev with
  | EvCreateWorker | EvLoadLanguage _ | EvInitialize _
  | EvSetParameters _ _ | EvRecognize _ | EvTerminate => true
  | _ => false
  end.

Definition is_createWorker (ev : event) : bool :=
  match ev with EvCreateWorker => true | _ => false end.

Definition is_terminate (ev : event) : bool :=
  match ev with EvTerminate => true | _ => false end.

(** The first call of lines 46-54 that rejects, with what it rejects with. *)
Definition first_rejection (k : Worker) : option exn :=
  match w_loadLanguage k, w_initialize k, w_setParameters k,
        w_recognize k, w_terminate_try k with
  | Some e, _, _, _, _ => Some e
  | None, Some e, _, _, _ => Some e
  | None, None, Some e, _, _ => Some e
  | None, None, None, inl e, _ => Some e
  | None, None, None, inr _, Some e => Some e
  | None, None, None, inr _, None => None
  end.

(** A string that is not empty and has no whitespace at either end. *)
Definition tidy (s : jsstring) : Prop :=
  s <> [] /\ no_leading_ws s /\ no_trailing_ws s.

(** The status code of a response. *)
Definition status_of (r : response) : nat :=
  match r with
  | JsonError status _ _ => status
  | JsonOk _ => 200
  end.

(** ** Sample requests *)

Module Samples.

Definition letters (n : nat) : jsstring := repeat 97%N n.

Definition upload : File := mkFile (lit "/tmp/uploads/3f2a9c") (lit "scan.pdf").

Definition req_scan : request := mkRequest (Some upload) None.

Definition req_module : request := mkRequest (Some upload) (Some (lit "m42")).

Definition page_png (n : nat) : path :=
  lit "/tmp/pdf-images/page." ++ of_nat n ++ lit ".png".

Definition worker_ok (pageText : jsstring) : Worker :=
  mkWorker None None None None (inr pageText) None None.

Definition worker_failing : Worker :=
  mkWorker None None None None (inl (lit "recognize failed")) None None.

Definition st_uploaded : State := mkState {[ file_path upload ]} [].

(** A scanned PDF: pdf-parse finds no text; [pages] is what the recognizer
    does on each page. *)
Definition scanned (pages : list Worker) : World :=
  mkWorld (fun _ => inr [37%N; 80%N; 68%N; 70%N])
          (fun _ => inr (mkPdfData (Some [])))
          (fun _ => inr (map page_png (seq 1 (length pages))))
          (fun i => nth i pages worker_failing)
          (fun _ _ => false)
          (fun _ => []).

(** One page, recognized as 35 letters. *)
Definition world_35 : World := scanned [worker_ok (letters 35)].

Definition candidate_35 : jsstring :=
  lit "--- Page 1 ---" ++ LF ++ letters 35.

(** A PDF with a text layer of 101 letters. *)
Definition world_text_101 : World :=
  mkWorld (fun _ => inr [37%N; 80%N; 68%N; 70%N])
          (fun _ => inr (mkPdfData (Some (letters 101))))
          (fun _ => inl (lit "render failed"))
          (fun _ => worker_failing)
          (fun _ _ => false)
          (fun _ => []).

(** Three pages; the second one fails. *)
Definition world_3_pages : World :=
  scanned [worker_ok (letters 40); worker_failing; worker_ok (letters 30)].

Definition texts_3_pages (j : nat) : jsstring :=
  match j with 0 => letters 40 | _ => letters 30 end.

(** Two pages: one fails, the other is recognized as blanks. *)
Definition world_blank : World :=
  scanned [worker_failing; worker_ok (lit "   ")].

End Samples.

(** ** More sample requests *)

Module MoreSamples.

(** A PDF without a text layer that pdf2pic cannot render. *)
Definition world_unrenderable : World :=
  mkWorld (fun _ => inr [37%N; 80%N; 68%N; 70%N])
          (fun _ => inr (mkPdfData None))
          (fun _ => inl (lit "render failed"))
          (fun _ => Samples.worker_failing)
          (fun _ _ => true)
          (fun _ => []).

(** A scanned PDF whose rendering writes the first page and then rejects;
    removals succeed. *)
Definition world_partial_render : World :=
  mkWorld (fun _ => inr [37%N; 80%N; 68%N; 70%N])
          (fun _ => inr (mkPdfData None))
          (fun _ => inl (lit "render failed"))
          (fun _ => Samples.worker_failing)
          (fun _ _ => false)
          (fun _ => [Samples.page_png 1]).

(** Somebody else's upload. *)
Definition other_upload : path := lit "/tmp/uploads/77aa01".

Definition st_two_uploads : State :=
  mkState ({[ file_path Samples.upload ]} ∪ {[ other_upload ]}) [].

End MoreSamples.

(** ** The AI endpoints of the second file

    [POST /extract-concepts] (lines 169-282) and [POST /chat] (lines 285-337)
    of the larger copy of the service.  The fields the handlers read from
    [req.body] are taken to be strings when they are present; the upstream API
    and [JSON.parse] are parameters. *)

Module Json.

(** A value as [JSON.parse] or [response.json()] makes it; an object is the
    list of its own properties. *)
Inductive json :=
| JNull
| JBool (b : bool)
| JNumber (x : PrimFloat.float)
| JString (s : jsstring)
| JArray (items : list json)
| JObject (fields : list (jsstring * json)).

(** Truthiness of such a value. *)
Definition truthy_json (v : json) : bool :=
  match v with
  | JNull => false
  | JBool b => b
  | JNumber x => negb (PrimFloat.is_zero x || PrimFloat.is_nan x)
  | JString s => truthy s
  | JArray _ | JObject _ => true
  end.

Fixpoint own_property (fields : list (jsstring * json)) (key : jsstring)
  : option json :=
  match fields with
  | [] => None
  | (k, v) :: rest => if bool_decide (k = key) then Some v else own_property rest key
  end.

(** [v.concepts] for a value [v] other than [null]; [None] is [undefined]. *)
Definition dot_concepts (v : json) : option json :=
  match v with
  | JObject fields => own_property fields (lit "concepts")
  | _ => None
  end.

(** What [c?.length || 0] evaluates to: a count, or whatever truthy value an
    object holds under the key ["length"]. *)
Inductive total :=
| Count (n : nat)
| Other (v : json).

Definition length_or_0 (c : option json) : total :=
  match c with
  | Some (JString s) => Count (length s)
  | Some (JArray items) => Count (length items)
  | Some (JObject fields) =>
      match own_property fields (lit "length") with
      | Some v => if truthy_json v then Other v else Count 0
      | None => Count 0
      end
  | Some JNull | Some (JBool _) | Some (JNumber _) | None => Count 0
  end.

(** [c || []] *)
Definition or_empty_array (c : option json) : json :=
  match c with
  | Some v => if truthy_json v then v else JArray []
  | None => JArray []
  end.

End Json.

Import Json.

(** *** The two regular expressions of line 254 *)

Module Regex.

(** The operators the two expressions use: a literal, a greedy ([c*]) or lazy
    ([c*?]) repetition of a character class, the capturing group and the
    sequence. *)
Inductive re :=
| Lit (s : jsstring)
| Star (greedy : bool) (cls : N -> bool)
| Group (r : re)
| Cat (r1 r2 : re).

(** Backtracking, as the ECMAScript matcher does it: [k] is what is left to
    match; a greedy repetition tries the longest run first, a lazy one the
    shortest. *)
Fixpoint star_greedy {R} (cls : N -> bool) (s : jsstring)
    (k : jsstring -> option R) : option R :=
  match s with
  | c :: s' =>
      if cls c
      then match star_greedy cls s' k with
           | Some r => Some r
           | None => k s
           end
      else k s
  | [] => k []
  end.

Fixpoint star_lazy {R} (cls : N -> bool) (s : jsstring)
    (k : jsstring -> option R) : option R :=
  match k s with
  | Some r => Some r
  | None =>
      match s with
      | c :: s' => if cls c then star_lazy cls s' k else None
      | [] => None
      end
  end.

(** [exec r s g k]: match [r] at the head of [s], with [g] the text captured
    by the group so far, then go on with [k]. *)
Fixpoint exec {R} (r : re) (s : jsstring) (g : option jsstring)
    (k : jsstring -> option jsstring -> option R) : option R :=
  match r with
  | Lit l => if startsWith s l then k (skipn (length l) s) g else None
  | Star true cls => star_greedy cls s (fun s' => k s' g)
  | Star false cls => star_lazy cls s (fun s' => k s' g)
  | Group r1 =>
      exec r1 s g (fun s' _ => k s' (Some (firstn (length s - length s') s)))
  | Cat r1 r2 => exec r1 s g (fun s' g' => exec r2 s' g' k)
  end.

(** A match that starts at the head of [s]: the matched text and the group. *)
Definition match_at (r : re) (s : jsstring) : option (jsstring * option jsstring) :=
  exec r s None (fun s' g => Some (firstn (length s - length s') s, g)).

(** [s.match(r)] for an expression without flags: the leftmost match, as the
    pair of [m[0]] and [m[1]], or [None] for [null]. *)
Fixpoint js_match (r : re) (s : jsstring) : option (jsstring * option jsstring) :=
  match match_at r s with
  | Some m => Some m
  | None =>
      match s with
      | _ :: s' => js_match r s'
      | [] => None
      end
  end.

Definition any (c : N) : bool := true.

Definition backtick : N := 96%N.

Definition fence : jsstring := [backtick; backtick; backtick].

(** [/```json\s*([\s\S]*?)\s*```/] *)
Definition fenced_json : re :=
  Cat (Lit (fence ++ lit "json"))
    (Cat (Star true is_ws)
       (Cat (Group (Star false any))
          (Cat (Star true is_ws) (Lit fence)))).

(** [/\{[\s\S]*\}/] *)
Definition braces : re :=
  Cat (Lit (lit "{")) (Cat (Star true any) (Lit (lit "}"))).

(** Lines 254-257: what is handed to [JSON.parse] for the trimmed answer
    [jsonStr]. *)
Definition extract_json (jsonStr : jsstring) : jsstring :=
  let jsonMatch :=
    match js_match fenced_json jsonStr with
    | Some m => Some m
    | None => js_match braces jsonStr
    end in
  match jsonMatch with
  | Some (whole, Some group1) => if truthy group1 then group1 else whole
  | Some (whole, None) => whole
  | None => jsonStr
  end.

End Regex.

Import Regex.

(** *** Requests, responses, calls *)

Module Ai.

(** The object given to [JSON.stringify] for the body of the upstream call. *)
Record MessagesBody := mkMessagesBody {
  model : jsstring;
  max_tokens : nat;
  role : jsstring;
  content : jsstring
}.

Record FetchRequest := mkFetchRequest {
  url : jsstring;
  http_method : jsstring;
  headers : list (jsstring * jsstring);
  body : MessagesBody
}.

(** What the handlers read of the upstream response.  [up_content_text] is the
    evaluation of [(await response.json()).content[0].text]: it raises when the
    body is not JSON or lacks that path, and may be [undefined] ([None]). *)
Record Upstream := mkUpstream {
  up_ok : bool;
  up_status : nat;
  up_text : exn + jsstring;
  up_content_text : exn + option json
}.

Inductive ai_response :=
| AiError (status : nat) (error : jsstring) (details : option jsstring)
| ChatOk (response : option json)
| ConceptsOk (concepts : json) (totalConcepts : total).

Inductive call :=
| CallFetch (r : FetchRequest)
| CallText
| CallContentText
| CallJsonParse (s : jsstring)
| CallRespond (r : ai_response).

(** The environment, the upstream API, [JSON.parse], and the messages of the
    [TypeError]s the engine raises: on destructuring an [undefined] body, on
    calling [trim] on a value that is not a string, on reading a property of
    [null]. *)
Record World := mkWorld {
  env_ANTHROPIC_API_KEY : option jsstring;
  fetch_result : FetchRequest -> exn + Upstream;
  json_parse : jsstring -> exn + json;
  destructure_error : exn;
  trim_error : option json -> exn;
  null_property_error : exn
}.

(** [req.body] after [express.json()]: [None] when it is [undefined]. *)
Record ChatBody := mkChatBody {
  message : option jsstring;
  context : option jsstring
}.

Record ConceptsBody := mkConceptsBody {
  text : option jsstring;
  fileName : option jsstring
}.

(** Calls made so far, and exceptions. *)
Definition A (X : Type) : Type := list call -> (exn + X) * list call.

Definition ret {X} (x : X) : A X := fun calls => (inr x, calls).

Definition throw {X} (e : exn) : A X := fun calls => (inl e, calls).

Definition bind {X Y} (m : A X) (k : X -> A Y) : A Y :=
  fun calls =>
    match m calls with
    | (inr x, calls') => k x calls'
    | (inl e, calls') => (inl e, calls')
    end.

Definition try_catch {X} (m : A X) (h : exn -> A X) : A X :=
  fun calls =>
    match m calls with
    | (inr x, calls') => (inr x, calls')
    | (inl e, calls') => h e calls'
    end.

Notation "'let+' x ':=' m 'in' k" := (bind m (fun x => k))
  (at level 10, x binder, m at level 100, k at level 200,
   format "'[v' 'let+'  x  ':='  m  'in' '/' k ']'").

Definition made (c : call) : A unit := fun calls => (inr tt, calls ++ [c]).

Definition settle {X} (r : exn + X) : A X :=
  match r with
  | inl e => throw e
  | inr x => ret x
  end.

Definition respond (r : ai_response) : A ai_response :=
  let+ _ := made (CallRespond r) in
  ret r.

(** Truthiness of a field that may be absent. *)
Definition present (field : option jsstring) : bool :=
  match field with
  | Some s => truthy s
  | None => false
  end.

Definition DQ : jsstring := [34%N].

Section Handlers.

Variable w : World.

Definition fetch (r : FetchRequest) : A Upstream :=
  let+ _ := made (CallFetch r) in
  settle (fetch_result w r).

Definition response_text (u : Upstream) : A jsstring :=
  let+ _ := made CallText in
  settle (up_text u).

Definition response_content_text (u : Upstream) : A (option json) :=
  let+ _ := made CallContentText in
  settle (up_content_text u).

Definition JSON_parse (s : jsstring) : A json :=
  let+ _ := made (CallJsonParse s) in
  settle (json_parse w s).

(** The upstream call of lines 182-238 and 298-313. *)
Definition messages_request (anthropicApiKey : jsstring) (b : MessagesBody)
  : FetchRequest :=
  {| url := lit "https://api.anthropic.com/v1/messages";
     http_method := lit "POST";
     headers := [(lit "Content-Type", lit "application/json");
                 (lit "x-api-key", anthropicApiKey);
                 (lit "anthropic-version", lit "2023-06-01")];
     body := b |}.

(** Lines 240-246 and 315-321: the answer to an upstream response that is
    not [ok]. *)
Definition upstream_failed (u : Upstream) : A ai_response :=
  let+ errorText := response_text u in
  respond (AiError (up_status u)
             (lit "Anthropic API failed: " ++ of_nat (up_status u))
             (Some errorText)).

(** *** Lines 285-337: [POST /chat] *)

(** Line 310: [context ? `${context}\n\n${message}` : message] *)
Definition chat_content (message : jsstring) (context : option jsstring) : jsstring :=
  match context with
  | Some c => if truthy c then c ++ LF ++ LF ++ message else message
  | None => message
  end.

Definition chat_handler (req_body : option ChatBody) : A ai_response :=
  try_catch
    match req_body with
    | None => throw (destructure_error w)
    | Some b =>
        match message b with
        | Some (c :: m) =>
            let message := c :: m in
            match env_ANTHROPIC_API_KEY w with
            | Some (k :: key) =>
                let anthropicApiKey := k :: key in
                let+ response :=
                  fetch (messages_request anthropicApiKey
                           {| model := lit "claude-3-5-sonnet-20241022";
                              max_tokens := 1000;
                              role := lit "user";
                              content := chat_content message (context b) |}) in
                if negb (up_ok response)
                then upstream_failed response
                else
                  let+ reply := response_content_text response in
                  respond (ChatOk reply)
            | _ => respond (AiError 500 (lit "Anthropic API key not configured") None)
            end
        | _ => respond (AiError 400 (lit "Message is required") None)
        end
    end
    (fun error => respond (AiError 500 (lit "Chat failed") (Some error))).

(** *** Lines 169-282: [POST /extract-concepts] *)

(** The template literal of lines 194-235. *)
Definition concepts_prompt (fileName text : jsstring) : jsstring :=
  join LF
    [ lit "Analyze the following text from " ++ DQ ++ fileName ++ DQ
        ++ lit " and extract ALL concepts, topics, definitions, algorithms, proc"
        ++ lit "esses, and learning points that students would need to know for "
        ++ lit "comprehensive understanding and exam preparation.";
      [];
      lit "Text content:";
      text;
      [];
      lit "EXTRACT EVERY CONCEPT - do not limit the number. Include:";
      lit "- Main concepts and topics";
      lit "- Sub-concepts and detailed points  ";
      lit "- Definitions and terminology";
      lit "- Algorithms and processes described";
      lit "- Examples and case studies mentioned";
      lit "- Technical details and specifications";
      lit "- Relationships between concepts";
      lit "- Practical applications mentioned";
      lit "- Formulas and mathematical expressions";
      lit "- Code snippets or pseudocode concepts";
      lit "- Diagrams and visual elements described";
      [];
      lit "For each concept, provide:";
      lit "1. A clear, specific title";
      lit "2. A detailed description of what students need to understand";
      lit "3. How important this concept is for exams (high/medium/low)";
      lit "4. A relevance score for exam preparation (1-10, where 10 is mos"
        ++ lit "t likely to appear on exams)";
      lit "5. Related terms or keywords";
      lit "6. Page number if identifiable (or section if clear)";
      [];
      lit "Return your analysis in this JSON format:";
      lit "{";
      lit "  " ++ DQ ++ lit "concepts" ++ DQ ++ lit ": [";
      lit "    {";
      lit "      " ++ DQ ++ lit "id" ++ DQ ++ lit ": " ++ DQ ++ lit "concept_1" ++ DQ
        ++ lit ",";
      lit "      " ++ DQ ++ lit "title" ++ DQ ++ lit ": " ++ DQ
        ++ lit "Specific concept name" ++ DQ ++ lit ",";
      lit "      " ++ DQ ++ lit "description" ++ DQ ++ lit ": " ++ DQ
        ++ lit "Comprehensive description of what students need to understand ab"
        ++ lit "out this concept, including technical details" ++ DQ ++ lit ",";
      lit "      " ++ DQ ++ lit "pageNumber" ++ DQ ++ lit ": 1,";
      lit "      " ++ DQ ++ lit "importance" ++ DQ ++ lit ": " ++ DQ
        ++ lit "high|medium|low" ++ DQ ++ lit ",";
      lit "      " ++ DQ ++ lit "examRelevance" ++ DQ ++ lit ": 8,";
      lit "      " ++ DQ ++ lit "relatedTerms" ++ DQ ++ lit ": [" ++ DQ ++ lit "term1"
        ++ DQ ++ lit ", " ++ DQ ++ lit "term2" ++ DQ ++ lit ", " ++ DQ ++ lit "term3"
        ++ DQ ++ lit "]";
      lit "    }";
      lit "  ]";
      lit "}";
      [];
      lit "Be exhaustive - extract every single concept, no matter how smal"
        ++ lit "l. The goal is complete coverage of all content for thorough exa"
        ++ lit "m preparation." ].

(** Lines 251-273: the inner [try] block, for the value [aiResponse]. *)
Definition parse_concepts (aiResponse : option json) : A ai_response :=
  let+ jsonStr :=
    match aiResponse with
    | Some (JString s) => ret (extract_json (trim s))
    | other => throw (trim_error w other)
    end in
  let+ parsed := JSON_parse jsonStr in
  let+ concepts :=
    match parsed with
    | JNull => throw (null_property_error w)
    | _ => ret (dot_concepts parsed)
    end in
  respond (ConceptsOk (or_empty_array concepts) (length_or_0 concepts)).

Definition extract_concepts_handler (req_body : option ConceptsBody) : A ai_response :=
  try_catch
    match req_body with
    | None => throw (destructure_error w)
    | Some b =>
        match text b, fileName b with
        | Some (c :: t), Some (d :: n) =>
            let text := c :: t in
            let fileName := d :: n in
            match env_ANTHROPIC_API_KEY w with
            | Some (k :: key) =>
                let anthropicApiKey := k :: key in
                let+ response :=
                  fetch (messages_request anthropicApiKey
                           {| model := lit "claude-3-5-sonnet-20241022";
                              max_tokens := 4000;
                              role := lit "user";
                              content := concepts_prompt fileName text |}) in
                if negb (up_ok response)
                then upstream_failed response
                else
                  let+ aiResponse := response_content_text response in
                  try_catch
                    (parse_concepts aiResponse)
                    (fun parseError =>
                       respond (AiError 500 (lit "Failed to parse AI response")
                                  (Some parseError)))
            | _ => respond (AiError 500 (lit "Anthropic API key not configured") None)
            end
        | _, _ => respond (AiError 400 (lit "Text and fileName are required") None)
        end
    end
    (fun error => respond (AiError 500 (lit "Concept extraction failed") (Some error))).

End Handlers.

Definition is_fetch (c : call) : bool :=
  match c with CallFetch _ => true | _ => false end.

Definition is_respond (c : call) : bool :=
  match c with CallRespond _ => true | _ => false end.

Definition is_parse (c : call) : bool :=
  match c with CallJsonParse _ => true | _ => false end.

(** The body of the upstream call of [POST /chat] (lines 305-312). *)
Definition chat_messages (message : jsstring) (context : option jsstring)
  : MessagesBody :=
  {| model := lit "claude-3-5-sonnet-20241022";
     max_tokens := 1000;
     role := lit "user";
     content := chat_content message context |}.

(** The body of the upstream call of [POST /extract-concepts] (lines 189-237). *)
Definition concepts_messages (fileName text : jsstring) : MessagesBody :=
  {| model := lit "claude-3-5-sonnet-20241022";
     max_tokens := 4000;
     role := lit "user";
     content := concepts_prompt fileName text |}.

End Ai.

(** *** Sample upstream behaviours *)

Module AiSamples.

Definition key : jsstring := lit "sk-test".

(** An upstream that answers 200 with the text [answer]. *)
Definition answering (answer : jsstring) : Ai.Upstream :=
  Ai.mkUpstream true 200 (inl (lit "body used")) (inr (Some (JString answer))).

(** An upstream that answers 529 with the body [overloaded]. *)
Definition overloaded : Ai.Upstream :=
  Ai.mkUpstream false 529 (inr (lit "overloaded")) (inl (lit "not json")).

(** [JSON.parse] for the one text the samples need. *)
Definition sample_payload : jsstring := lit "{ concepts: [1, 2] }".

Definition sample_parse (s : jsstring) : exn + json :=
  if bool_decide (s = sample_payload)
  then inr (JObject [(lit "concepts",
                      JArray [JString (lit "one"); JString (lit "two")])])
  else inl (lit "Unexpected token").

Definition world (k : option jsstring) (u : exn + Ai.Upstream) : Ai.World :=
  Ai.mkWorld k (fun _ => u) sample_parse
    (lit "Cannot destructure property of undefined")
    (fun _ => lit "aiResponse.trim is not a function")
    (lit "Cannot read properties of null").

Definition hello : Ai.ChatBody := Ai.mkChatBody (Some (lit "hello")) None.

Definition lecture : Ai.ConceptsBody :=
  Ai.mkConceptsBody (Some (lit "Sorting is ...")) (Some (lit "week1.pdf")).

End AiSamples.

(** ** Facts about strings *)

Section StringFacts.

Lemma trimStart_no_leading s : no_leading_ws (trimStart s).
Proof.
  induction s as [|c s IH]; simpl; [exact I|].
  destruct (is_ws c) eqn:E; [exact IH | exact E].
Qed.

Lemma trimStart_fixed s : no_leading_ws s -> trimStart s = s.
Proof. destruct s as [|c s]; simpl; [reflexivity|]. intros ->. reflexivity. Qed.

Lemma trimStart_snoc s c : is_ws c = false -> trimStart (s ++ [c]) = trimStart s ++ [c].
Proof.
  intros Hc. induction s as [|a s IH]; simpl.
  - rewrite Hc. reflexivity.
  - destruct (is_ws a); [exact IH | reflexivity].
Qed.

Lemma trim_no_leading s : no_leading_ws (trim s).
Proof.
  unfold trim, trimEnd.
  pose proof (trimStart_no_leading s) as H.
  destruct (trimStart s) as [|c r]; simpl; [exact I|].
  simpl in H. rewrite (trimStart_snoc _ _ H), rev_app_distr. simpl. exact H.
Qed.

Lemma trim_no_trailing s : no_trailing_ws (trim s).
Proof.
  unfold no_trailing_ws, trim, trimEnd. rewrite rev_involutive.
  apply trimStart_no_leading.
Qed.

Lemma trim_idempotent s : trim (trim s) = trim s.
Proof.
  unfold trim at 1. rewrite (trimStart_fixed _ (trim_no_leading s)).
  unfold trimEnd. rewrite (trimStart_fixed _ (trim_no_trailing s)).
  apply rev_involutive.
Qed.

Lemma lit_inj a b : lit a = lit b -> a = b.
Proof.
  unfold lit. intros H.
  rewrite <- (string_of_list_ascii_of_string a), <- (string_of_list_ascii_of_string b).
  f_equal. revert H.
  generalize (list_ascii_of_string a) (list_ascii_of_string b).
  induction l as [|x l IH]; intros [|y l']; simpl; intros H; try discriminate;
    [reflexivity|].
  injection H as Hxy Hl. f_equal; [|apply IH; exact Hl].
  rewrite <- (ascii_N_embedding x), <- (ascii_N_embedding y), Hxy. reflexivity.
Qed.

(** The digits of a template literal tell the number. *)
Lemma of_nat_inj n m : of_nat n = of_nat m -> n = m.
Proof.
  unfold of_nat. intros H. apply lit_inj in H.
  apply DecimalNat.Unsigned.to_uint_inj.
  pose proof (NilEmpty.usu (Nat.to_uint n)) as Hn.
  rewrite H, NilEmpty.usu in Hn. congruence.
Qed.

Lemma page_marker_inj n m : page_marker n = page_marker m -> n = m.
Proof.
  unfold page_marker. intros H.
  apply app_inv_head in H. apply app_inv_tail in H. apply of_nat_inj, H.
Qed.

End StringFacts.

(** ** Running the stages *)

Ltac run_monad :=
  unfold bind, try_catch, emit, settle, settle_unit, ret, throw; simpl.

Section Runs.

Variable w : World.

Lemma extractTextWithTesseract_run k imagePath st :
  extractTextWithTesseract k imagePath st
  = (recognized k, mkState (files st) (log st ++ worker_calls k imagePath)).
Proof.
  unfold recognized, worker_calls, extractTextWithTesseract.
  destruct k as [c l i p r t1 t2].
  run_monad.
  destruct c; simpl; [reflexivity|].
  destruct l; simpl; [destruct t2; simpl; rewrite <- ?app_assoc; reflexivity|].
  destruct i; simpl; [destruct t2; simpl; rewrite <- ?app_assoc; reflexivity|].
  destruct p; simpl; [destruct t2; simpl; rewrite <- ?app_assoc; reflexivity|].
  destruct r; simpl; [destruct t2; simpl; rewrite <- ?app_assoc; reflexivity|].
  destruct t1; simpl; [destruct t2; simpl; rewrite <- ?app_assoc; reflexivity|].
  rewrite <- ?app_assoc; reflexivity.
Qed.

Lemma basic_extraction_run pdfPath st :
  basic_extraction w pdfPath st
  = (basic_result w pdfPath,
     mkState (files st) (log st ++ basic_calls w pdfPath)).
Proof.
  unfold basic_result, basic_calls, basic_extraction, fs_readFile, pdfParse.
  run_monad.
  destruct (readFile_result w pdfPath) as [e|buf]; simpl; [reflexivity|].
  destruct (pdfParse_result w buf) as [e|[[t|]]]; simpl;
    rewrite <- ?app_assoc; try reflexivity.
  destruct (truthy t && (100 <? length (trim t))); reflexivity.
Qed.

Lemma ocr_loop_run imagePaths : forall i ocrResults st,
  ocr_loop w imagePaths i ocrResults st
  = (inr (ocrResults ++ loop_pushes (tesseract w) i (length imagePaths)),
     mkState (files st) (log st ++ loop_calls (tesseract w) imagePaths i)).
Proof.
  induction imagePaths as [|p rest IH]; intros i acc st.
  - simpl. unfold ret, loop_pushes. simpl. rewrite !app_nil_r. destruct st; reflexivity.
  - cbn [ocr_loop loop_calls length]. unfold bind at 1, try_catch, bind at 1.
    rewrite extractTextWithTesseract_run.
    unfold loop_pushes. cbn [seq flat_map]. fold (loop_pushes (tesseract w) (S i) (length rest)).
    unfold page_pushes at 1, page_accepted.
    destruct (recognized (tesseract w i)) as [e|t].
    + unfold ret. rewrite IH. simpl. rewrite <- app_assoc. reflexivity.
    + destruct (10 <? length (trim t)); unfold ret; rewrite IH; simpl;
        rewrite <- ?app_assoc; reflexivity.
Qed.

Lemma remove_images_run imagePaths : forall st,
  remove_images w imagePaths st
  = (inr tt,
     mkState (files_after_removes w imagePaths (files st) (log st))
             (log st ++ map EvRemove imagePaths)).
Proof.
  induction imagePaths as [|p rest IH]; intros st.
  - simpl. unfold ret. rewrite app_nil_r. destruct st; reflexivity.
  - cbn [remove_images]. unfold bind, fs_remove_quiet. rewrite IH. simpl.
    rewrite <- app_assoc. reflexivity.
Qed.

End Runs.

Section HandlerRuns.

Variable w : World.

Lemma ocr_extraction_run_ok pdfPath imagePaths st :
  bulk_result w pdfPath = inr imagePaths ->
  ocr_extraction w pdfPath st
  = (inr (aggregate (tesseract w) (length imagePaths)),
     mkState
       (files_after_removes w imagePaths (files st ∪ list_to_set imagePaths)
          (log st ++ [EvBulk pdfPath] ++ loop_calls (tesseract w) imagePaths 0))
       (log st ++ [EvBulk pdfPath] ++ loop_calls (tesseract w) imagePaths 0
          ++ map EvRemove imagePaths)).
Proof.
  intros Hb. unfold ocr_extraction, convertPdfToImages, pdf2pic_bulk.
  unfold bind at 1 2, emit. rewrite Hb.
  cbn [files log]. unfold bind at 1. rewrite ocr_loop_run.
  unfold bind. rewrite remove_images_run. unfold ret, aggregate.
  cbn [files log app]. rewrite <- !app_assoc. reflexivity.
Qed.

Lemma ocr_extraction_run_error pdfPath e st :
  bulk_result w pdfPath = inl e ->
  ocr_extraction w pdfPath st
  = (inl e,
     mkState (files st ∪ list_to_set (bulk_leftovers w pdfPath))
       (log st ++ [EvBulk pdfPath])).
Proof.
  intros Hb. unfold ocr_extraction, convertPdfToImages, pdf2pic_bulk.
  unfold bind, emit. rewrite Hb. reflexivity.
Qed.

Lemma finish_run f m t st :
  (let* _ := fs_remove_quiet w (file_path f) in
   if extraction_failed t
   then respond (JsonError 500 (lit "Text extraction failed")
                   (Some (lit "Unable to extract meaningful text from PDF")))
   else respond (JsonOk (success_body f m t))) st
  = (inr (final_response f m t),
     mkState (files_after_remove w (file_path f) (files st) (log st))
       (log st ++ [EvRemove (file_path f); EvRespond (final_response f m t)])).
Proof.
  unfold bind, fs_remove_quiet, final_response, respond, files_after_remove.
  destruct (extraction_failed t); run_monad; rewrite <- app_assoc; reflexivity.
Qed.

Lemma ocr_handler_no_file req st :
  req_file req = None ->
  ocr_handler w req st
  = (inr bad_request, mkState (files st) (log st ++ [EvRespond bad_request])).
Proof. intros H. unfold ocr_handler. rewrite H. reflexivity. Qed.

(** The basic extraction is accepted. *)
Lemma ocr_handler_basic req f t st :
  req_file req = Some f ->
  basic_result w (file_path f) = inr t ->
  let r := final_response f (moduleId_or_default (req_body_moduleId req)) t in
  ocr_handler w req st
  = (inr r,
     mkState
       (files_after_remove w (file_path f) (files st)
          (log st ++ basic_calls w (file_path f)))
       (log st ++ basic_calls w (file_path f) ++ [EvRemove (file_path f); EvRespond r])).
Proof.
  intros Hf Hb r. unfold ocr_handler. rewrite Hf.
  unfold try_catch at 1, bind at 1, extract_text, try_catch.
  rewrite basic_extraction_run, Hb, finish_run. cbn [files log].
  rewrite <- app_assoc. reflexivity.
Qed.

(** The basic extraction is not accepted and the pages are rendered. *)
Lemma ocr_handler_ocr req f e imagePaths st :
  req_file req = Some f ->
  basic_result w (file_path f) = inl e ->
  bulk_result w (file_path f) = inr imagePaths ->
  let r := final_response f (moduleId_or_default (req_body_moduleId req))
             (aggregate (tesseract w) (length imagePaths)) in
  let calls := basic_calls w (file_path f) ++ [EvBulk (file_path f)]
                 ++ loop_calls (tesseract w) imagePaths 0 in
  ocr_handler w req st
  = (inr r,
     mkState
       (files_after_remove w (file_path f)
          (files_after_removes w imagePaths (files st ∪ list_to_set imagePaths)
             (log st ++ calls))
          (log st ++ calls ++ map EvRemove imagePaths))
       (log st ++ calls ++ map EvRemove imagePaths
          ++ [EvRemove (file_path f); EvRespond r])).
Proof.
  intros Hf Hb Hr r calls. unfold ocr_handler. rewrite Hf.
  unfold try_catch at 1, bind at 1, extract_text, try_catch.
  rewrite basic_extraction_run, Hb, (ocr_extraction_run_ok _ _ _ Hr), finish_run.
  cbn [files log]. subst calls. rewrite <- !app_assoc. reflexivity.
Qed.

(** The basic extraction is not accepted and the rendering raises [e']. *)
Lemma ocr_handler_render_error req f e e' st :
  req_file req = Some f ->
  basic_result w (file_path f) = inl e ->
  bulk_result w (file_path f) = inl e' ->
  let calls := basic_calls w (file_path f) ++ [EvBulk (file_path f)] in
  ocr_handler w req st
  = (inr (processing_failed e'),
     if truthy (file_path f)
     then mkState
            (files_after_remove w (file_path f)
               (files st ∪ list_to_set (bulk_leftovers w (file_path f)))
               (log st ++ calls))
            (log st ++ calls ++ [EvRemove (file_path f); EvRespond (processing_failed e')])
     else mkState (files st ∪ list_to_set (bulk_leftovers w (file_path f)))
            (log st ++ calls ++ [EvRespond (processing_failed e')])).
Proof.
  intros Hf Hb Hr calls. unfold ocr_handler. rewrite Hf.
  unfold try_catch at 1, bind at 1, extract_text, try_catch.
  rewrite basic_extraction_run, Hb, (ocr_extraction_run_error _ _ _ Hr).
  subst calls. unfold bind, respond, fs_remove_quiet, files_after_remove, processing_failed.
  destruct (truthy (file_path f)); run_monad; rewrite <- !app_assoc; reflexivity.
Qed.

End HandlerRuns.

(** ** The final acceptance check and the success payload *)

Section FinalCheck.

Variable w : World.

Lemma extraction_failed_spec t :
  extraction_failed t = (length (trim t) <? 50).
Proof.
  unfold extraction_failed. destruct t as [|c t]; [reflexivity|]. reflexivity.
Qed.

(** Past line 129 the response is the one of lines 134-149. *)
Lemma ocr_handler_of_candidate req f t st :
  req_file req = Some f ->
  fst (extract_text w (file_path f) st) = inr t ->
  fst (ocr_handler w req st)
  = inr (final_response f (moduleId_or_default (req_body_moduleId req)) t).
Proof.
  intros Hf Ht. unfold ocr_handler. rewrite Hf.
  unfold try_catch at 1, bind at 1.
  destruct (extract_text w (file_path f) st) as [[e|t'] st1]; simpl in Ht;
    [discriminate|]. injection Ht as ->.
  rewrite finish_run. reflexivity.
Qed.

(** The three ways through the handler once a file is there. *)
Lemma ocr_handler_cases req f st :
  req_file req = Some f ->
  let m := moduleId_or_default (req_body_moduleId req) in
  (exists t, basic_result w (file_path f) = inr t
             /\ fst (ocr_handler w req st) = inr (final_response f m t))
  \/ (exists e imagePaths,
        basic_result w (file_path f) = inl e
        /\ bulk_result w (file_path f) = inr imagePaths
        /\ fst (ocr_handler w req st)
           = inr (final_response f m (aggregate (tesseract w) (length imagePaths))))
  \/ (exists e e',
        basic_result w (file_path f) = inl e
        /\ bulk_result w (file_path f) = inl e'
        /\ fst (ocr_handler w req st) = inr (processing_failed e')).
Proof.
  intros Hf m.
  destruct (basic_result w (file_path f)) as [e|t] eqn:Hb.
  - destruct (bulk_result w (file_path f)) as [e'|ps] eqn:Hr.
    + right; right. exists e, e'. rewrite (ocr_handler_render_error w _ _ _ _ st Hf Hb Hr).
      auto.
    + right; left. exists e, ps. rewrite (ocr_handler_ocr w _ _ _ _ st Hf Hb Hr). auto.
  - left. exists t. rewrite (ocr_handler_basic w _ _ _ st Hf Hb). auto.
Qed.

(** A success payload is built at lines 142-149 from an accepted candidate. *)
Lemma ocr_handler_success req st body :
  fst (ocr_handler w req st) = inr (JsonOk body) ->
  exists f t,
    req_file req = Some f
    /\ extraction_failed t = false
    /\ body = success_body f (moduleId_or_default (req_body_moduleId req)) t
    /\ (basic_result w (file_path f) = inr t
        \/ exists e imagePaths,
             basic_result w (file_path f) = inl e
             /\ bulk_result w (file_path f) = inr imagePaths
             /\ t = aggregate (tesseract w) (length imagePaths)).
Proof.
  intros H. destruct (req_file req) as [f|] eqn:Hf.
  - exists f.
    destruct (ocr_handler_cases req f st Hf) as [(t & Hb & Hr)|[(e & ps & Hb & Hp & Hr)|(e & e' & _ & _ & Hr)]];
      rewrite Hr in H; try discriminate.
    + exists t. unfold final_response in H.
      destruct (extraction_failed t); [discriminate|].
      injection H as <-. repeat split; auto.
    + exists (aggregate (tesseract w) (length ps)). unfold final_response in H.
      destruct (extraction_failed _); [discriminate|].
      injection H as <-. repeat split; auto. right. exists e, ps. auto.
  - rewrite (ocr_handler_no_file w req st Hf) in H. discriminate.
Qed.

End FinalCheck.

(** C1, as it holds on the code: line 134 rejects the final candidate when its
    trimmed length is below 50, so a candidate is accepted if and only if its
    trimmed length is at least 50, whichever tier produced it. *)
Theorem final_check_threshold (w : World) (req : request) (f : File)
    (st : State) (t : jsstring) :
  req_file req = Some f ->
  fst (extract_text w (file_path f) st) = inr t ->
  (50 <= length (trim t) ->
     fst (ocr_handler w req st)
     = inr (JsonOk (success_body f (moduleId_or_default (req_body_moduleId req)) t)))
  /\ (length (trim t) < 50 ->
        fst (ocr_handler w req st)
        = inr (JsonError 500 (lit "Text extraction failed")
                 (Some (lit "Unable to extract meaningful text from PDF")))).
Proof.
  intros Hf Ht. rewrite (ocr_handler_of_candidate w req f t st Hf Ht).
  unfold final_response. rewrite extraction_failed_spec.
  split; intros Hlen.
  - apply Nat.ltb_ge in Hlen. rewrite Hlen. reflexivity.
  - apply Nat.ltb_lt in Hlen. rewrite Hlen. reflexivity.
Qed.

Lemma final_check_threshold_witness :
  fst (ocr_handler Samples.world_35 Samples.req_scan Samples.st_uploaded)
  = inr (JsonOk (success_body Samples.upload (lit "unknown") Samples.candidate_35)).
Proof.
  apply (final_check_threshold Samples.world_35 Samples.req_scan Samples.upload
           Samples.st_uploaded Samples.candidate_35).
  - reflexivity.
  - vm_compute. reflexivity.
  - vm_compute. lia.
Defined.

(** C1, as stated, fails at the boundary: one page recognized as 35 letters
    gives a final candidate of trimmed length exactly 50 (15 characters for the
    marker line, 35 for the page), and the request succeeds. *)
Lemma final_check_accepts_length_50 :
  fst (extract_text Samples.world_35 (file_path Samples.upload) Samples.st_uploaded)
  = inr Samples.candidate_35
  /\ length (trim Samples.candidate_35) = 50
  /\ extraction_failed Samples.candidate_35 = false
  /\ fst (ocr_handler Samples.world_35 Samples.req_scan Samples.st_uploaded)
     = inr (JsonOk {| success := true;
                      text := Samples.candidate_35;
                      filename := lit "scan.pdf";
                      moduleId := lit "unknown";
                      textLength := 50;
                      method := lit "ocr" |}).
Proof. vm_compute. repeat split; reflexivity. Qed.

(** C2 at a PDF whose text layer is 101 letters: the basic extraction is
    accepted and neither the renderer nor the recognizer is called, yet the
    [method] field of the success payload is ['ocr'], because line 148 looks
    for the words "Basic extraction" in the extracted text. *)
Theorem structural_text_reported_as_ocr :
  basic_result Samples.world_text_101 (file_path Samples.upload)
  = inr (Samples.letters 101)
  /\ fst (ocr_handler Samples.world_text_101 Samples.req_scan Samples.st_uploaded)
     = inr (JsonOk {| success := true;
                      text := Samples.letters 101;
                      filename := lit "scan.pdf";
                      moduleId := lit "unknown";
                      textLength := 101;
                      method := lit "ocr" |})
  /\ forallb (fun ev => negb (recognition_call ev))
       (log (snd (ocr_handler Samples.world_text_101 Samples.req_scan
                    Samples.st_uploaded))) = true.
Proof. vm_compute. repeat split; reflexivity. Qed.

(** C9: a success payload reports ['unknown'] as [moduleId] when the caller
    left the field out or sent the empty string, and the caller's value,
    unchanged, otherwise. *)
Theorem moduleId_defaults_to_unknown (w : World) (req : request) (st : State)
    (body : SuccessBody) :
  fst (ocr_handler w req st) = inr (JsonOk body) ->
  moduleId body = match req_body_moduleId req with
                  | None => lit "unknown"
                  | Some [] => lit "unknown"
                  | Some (c :: s) => c :: s
                  end.
Proof.
  intros H. destruct (ocr_handler_success w req st body H) as (f & t & _ & _ & -> & _).
  simpl. unfold moduleId_or_default.
  destruct (req_body_moduleId req) as [[|c s]|]; reflexivity.
Qed.

Lemma moduleId_defaults_to_unknown_witness :
  moduleId (success_body Samples.upload (lit "m42") Samples.candidate_35) = lit "m42".
Proof.
  apply (moduleId_defaults_to_unknown Samples.world_35 Samples.req_module
           Samples.st_uploaded).
  vm_compute. reflexivity.
Defined.

(** C10: in a success payload [text] has no whitespace at either end, and
    [textLength] is the length of that [text]. *)
Theorem success_text_trimmed_and_measured (w : World) (req : request) (st : State)
    (body : SuccessBody) :
  fst (ocr_handler w req st) = inr (JsonOk body) ->
  no_leading_ws (text body)
  /\ no_trailing_ws (text body)
  /\ textLength body = length (text body).
Proof.
  intros H. destruct (ocr_handler_success w req st body H) as (f & t & _ & _ & -> & _).
  simpl. split; [apply trim_no_leading | split; [apply trim_no_trailing | reflexivity]].
Qed.

Lemma success_text_trimmed_and_measured_witness :
  no_leading_ws (text (success_body Samples.upload (lit "unknown") Samples.candidate_35))
  /\ no_trailing_ws (text (success_body Samples.upload (lit "unknown") Samples.candidate_35))
  /\ textLength (success_body Samples.upload (lit "unknown") Samples.candidate_35)
     = length (text (success_body Samples.upload (lit "unknown") Samples.candidate_35)).
Proof.
  apply (success_text_trimmed_and_measured Samples.world_35 Samples.req_scan
           Samples.st_uploaded).
  vm_compute. reflexivity.
Defined.

(** ** The page recognizer *)

Ltac lifecycle_case :=
  cbn [fst snd log files firstn repeat app];
  rewrite <- ?app_assoc; cbn [app];
  split; [reflexivity|];
  split; [rewrite last_app_cons; reflexivity|];
  split; [reflexivity|];
  split;
  [ let t := fresh "t" in
    intros t; split;
    [ let H := fresh "H" in
      intros H; try discriminate H; injection H as <-; repeat split; reflexivity
    | intros (? & ? & ? & ? & ?); try discriminate; congruence ]
  | let t := fresh "t" in
    let H := fresh "H" in
    intros t H; try discriminate H; reflexivity ].

(** C8: every invocation of the recognizer starts by creating a worker of its
    own.  Once the worker exists, the calls made on it are exactly these: the
    calls of the fixed profile in the order of the source ([loadLanguage] and
    [initialize] with ['eng'], [setParameters] with the whitelist of ASCII
    letters, digits, space and punctuation and page segmentation mode ['1'],
    then [recognize] on the page image), each made once the ones before it
    have resolved, the first of them always; then [terminate], once, or
    twice when the call of line 54 rejects.  [terminate] is the last call,
    whether the invocation returns a text or raises, and no file is touched.
    A text is returned exactly when every call resolves, it is the text
    [recognize] gave, and the calls are then the whole profile followed by one
    [terminate]. *)
Theorem recognizer_lifecycle (k : Worker) (imagePath : path) (st : State) :
  let run := extractTextWithTesseract k imagePath st in
  forallb profile_char tessedit_char_whitelist = true
  /\ eng = lit "eng"
  /\ tessedit_pageseg_mode = lit "1"
  /\ match w_createWorker k with
     | Some e => run = (inl e, mkState (files st) (log st ++ [EvCreateWorker]))
     | None =>
         log (snd run)
         = log st ++ EvCreateWorker
             :: firstn (profile_calls_made k)
                  [EvLoadLanguage eng; EvInitialize eng;
                   EvSetParameters tessedit_char_whitelist tessedit_pageseg_mode;
                   EvRecognize imagePath]
             ++ repeat EvTerminate (terminate_calls k)
         /\ last (log (snd run)) = Some EvTerminate
         /\ files (snd run) = files st
         /\ (forall t,
               fst run = inr t
               <-> w_loadLanguage k = None /\ w_initialize k = None
                   /\ w_setParameters k = None /\ w_recognize k = inr t
                   /\ w_terminate_try k = None)
         /\ (forall t,
               fst run = inr t ->
               log (snd run)
               = log st ++ [EvCreateWorker; EvLoadLanguage eng; EvInitialize eng;
                            EvSetParameters tessedit_char_whitelist
                              tessedit_pageseg_mode;
                            EvRecognize imagePath; EvTerminate])
     end.
Proof.
  intros run.
  split; [reflexivity|]. split; [reflexivity|]. split; [reflexivity|].
  subst run.
  unfold extractTextWithTesseract, profile_calls_made, terminate_calls.
  destruct k as [c l i p r t1 t2].
  unfold bind, try_catch, emit, settle, settle_unit, ret, throw.
  cbn [w_createWorker w_loadLanguage w_initialize w_setParameters w_recognize
       w_terminate_try w_terminate_catch].
  destruct c as [e|]; [reflexivity|].
  destruct l as [e|]; [destruct t2; lifecycle_case|].
  destruct i as [e|]; [destruct t2; lifecycle_case|].
  destruct p as [e|]; [destruct t2; lifecycle_case|].
  destruct r as [e|t]; [destruct t1, t2; lifecycle_case|].
  destruct t1 as [e|]; [destruct t2; lifecycle_case|].
  lifecycle_case.
Qed.

(** One page recognized as 35 letters: six calls, a text. *)
Lemma recognizer_lifecycle_witness :
  extractTextWithTesseract (Samples.worker_ok (Samples.letters 35))
    (Samples.page_png 1) Samples.st_uploaded
  = (inr (Samples.letters 35),
     mkState (files Samples.st_uploaded)
       [EvCreateWorker; EvLoadLanguage eng; EvInitialize eng;
        EvSetParameters tessedit_char_whitelist tessedit_pageseg_mode;
        EvRecognize (Samples.page_png 1); EvTerminate]).
Proof.
  pose proof (recognizer_lifecycle (Samples.worker_ok (Samples.letters 35))
                (Samples.page_png 1) Samples.st_uploaded) as H.
  cbv zeta in H. destruct H as (_ & _ & _ & H).
  cbn [w_createWorker Samples.worker_ok] in H.
  destruct H as (_ & _ & Hfiles & Htext & Hlog).
  destruct (extractTextWithTesseract (Samples.worker_ok (Samples.letters 35))
              (Samples.page_png 1) Samples.st_uploaded) as [r [fs l]] eqn:E.
  cbn [fst snd files log] in *.
  assert (Hr : r = inr (Samples.letters 35)).
  { apply Htext. repeat split; reflexivity. }
  rewrite (Hlog _ Hr), Hr, Hfiles. reflexivity.
Defined.

(** ** Temporary files *)

Section Cleanup.

Variable w : World.

Hypothesis removals_succeed : forall calls p, remove_rejects w calls p = false.



End Cleanup.

Section NoEarlyResponse.

Variable w : World.





End NoEarlyResponse.

(** [fs.remove] is called by the handler only: neither the basic extraction
    nor a recognizer calls it. *)
Section RemovalCalls.

Variable w : World.

Lemma basic_calls_no_remove pdfPath q :
  ~ In (EvRemove q) (basic_calls w pdfPath).
Proof.
  unfold basic_calls, basic_extraction, fs_readFile, pdfParse. run_monad.
  destruct (readFile_result w pdfPath) as [e|buf]; simpl; [intuition discriminate|].
  destruct (pdfParse_result w buf) as [e|[[s|]]]; simpl; try (intuition discriminate).
  destruct (truthy s && (100 <? length (trim s))); simpl; intuition discriminate.
Qed.

Lemma worker_calls_no_remove k imagePath q :
  ~ In (EvRemove q) (worker_calls k imagePath).
Proof.
  unfold worker_calls, extractTextWithTesseract.
  destruct k as [[?|] [?|] [?|] [?|] [?|?] [?|] [?|]]; simpl; intuition discriminate.
Qed.

Lemma loop_calls_no_remove tess imagePaths q : forall i,
  ~ In (EvRemove q) (loop_calls tess imagePaths i).
Proof.
  induction imagePaths as [|p rest IH]; intros i; [intros []|].
  cbn [loop_calls]. rewrite in_app_iff.
  intros [H|H]; [exact (worker_calls_no_remove _ _ _ H) | exact (IH _ H)].
Qed.

Lemma in_map_remove q (imagePaths : list path) :
  In (EvRemove q) (map EvRemove imagePaths) -> In q imagePaths.
Proof. rewrite in_map_iff. intros (x & [= ->] & H). exact H. Qed.

End RemovalCalls.






(** ** The recognition pipeline *)

Section Aggregation.

Variable tess : nat -> Worker.

Lemma page_entry_marked i t : page_entry i t = marked (i, t).
Proof.
  unfold page_entry, marked, page_marker. simpl. rewrite <- !app_assoc. reflexivity.
Qed.

(** The pushes of the loop are the marked accepted pages, in page order. *)
Lemma pushes_marked (indices : list nat) :
  flat_map (page_pushes tess) indices
  = map marked
      (List.filter accepted
         (flat_map (fun i => match recognized (tess i) with
                             | inr pageText => [(i, pageText)]
                             | inl _ => []
                             end) indices)).
Proof.
  induction indices as [|i l IH]; [reflexivity|].
  cbn [flat_map]. rewrite List.filter_app, map_app, <- IH. f_equal.
  unfold page_pushes, page_accepted.
  destruct (recognized (tess i)) as [e|t]; [reflexivity|].
  cbn [List.filter]. unfold accepted at 1. cbn [snd].
  destruct (10 <? length (trim t)); [|reflexivity].
  cbn [map]. rewrite page_entry_marked. reflexivity.
Qed.

Lemma aggregate_spec n :
  aggregate tess n = spec_aggregate (recognized_pages tess n).
Proof.
  unfold aggregate, spec_aggregate, recognized_pages, loop_pushes, blank_line.
  rewrite pushes_marked. reflexivity.
Qed.

(** The pushes when the page [k] fails and every other page is recognized. *)
Lemma pushes_one_failure (texts : nat -> jsstring) k e (indices : list nat) :
  recognized (tess k) = inl e ->
  (forall j, In j indices -> j <> k -> recognized (tess j) = inr (texts j)) ->
  flat_map (page_pushes tess) indices
  = map (fun j => page_entry j (texts j))
      (List.filter (fun j => negb (j =? k) && page_accepted (texts j)) indices).
Proof.
  intros Hk. induction indices as [|i l IH]; intros Hl; [reflexivity|].
  cbn [flat_map List.filter].
  rewrite IH by (intros j Hj; apply Hl; right; exact Hj).
  unfold page_pushes at 1.
  destruct (Nat.eqb_spec i k) as [->|Hne].
  - rewrite Hk. reflexivity.
  - rewrite (Hl i (or_introl eq_refl) Hne). cbn [negb andb].
    destruct (page_accepted (texts i)); reflexivity.
Qed.

Lemma pushes_none (indices : list nat) :
  (forall j, In j indices ->
     match recognized (tess j) with
     | inr pageText => page_accepted pageText = false
     | inl _ => True
     end) ->
  flat_map (page_pushes tess) indices = [].
Proof.
  induction indices as [|i l IH]; intros Hl; [reflexivity|].
  cbn [flat_map]. rewrite IH by (intros j Hj; apply Hl; right; exact Hj).
  pose proof (Hl i (or_introl eq_refl)) as Hi. unfold page_pushes.
  destruct (recognized (tess i)) as [e|t]; [reflexivity|]. rewrite Hi. reflexivity.
Qed.

Lemma recognized_calls k t imagePath :
  recognized k = inr t -> In (EvRecognize imagePath) (worker_calls k imagePath).
Proof.
  unfold recognized, worker_calls, extractTextWithTesseract.
  destruct k as [[?|] [?|] [?|] [?|] [?|?] [?|] [?|]]; run_monad;
    intros H; try discriminate; auto 10.
Qed.

Lemma loop_calls_lookup (imagePaths : list path) : forall i j p,
  imagePaths !! j = Some p ->
  forall ev, In ev (worker_calls (tess (i + j)) p) ->
             In ev (loop_calls tess imagePaths i).
Proof.
  induction imagePaths as [|q rest IH]; intros i j p Hj ev Hev; [discriminate|].
  cbn [loop_calls]. apply in_or_app. destruct j as [|j].
  - injection Hj as ->. left. rewrite Nat.add_0_r in Hev. exact Hev.
  - right. apply (IH (S i) j p Hj). rewrite Nat.add_succ_l, <- Nat.add_succ_r. exact Hev.
Qed.

End Aggregation.

(** C5: when the pages are rendered, the text the recognition pipeline yields
    is the aggregate of the specification: the recognized pages whose trimmed
    length exceeds 10 (and no other), in page order, each one trimmed and
    prefixed with the marker of its 1-based ordinal, joined by a blank line.
    The marker tells the ordinal. *)
Theorem aggregate_of_accepted_pages (w : World) (pdfPath : path)
    (imagePaths : list path) (st : State) :
  bulk_result w pdfPath = inr imagePaths ->
  fst (ocr_extraction w pdfPath st)
  = inr (spec_aggregate (recognized_pages (tesseract w) (length imagePaths)))
  /\ (forall page, accepted page = true <-> 10 < length (trim (snd page)))
  /\ (forall n m, page_marker n = page_marker m -> n = m).
Proof.
  intros Hr. rewrite (ocr_extraction_run_ok w pdfPath imagePaths st Hr).
  cbn [fst]. rewrite aggregate_spec.
  split; [reflexivity|]. split.
  - intros page. unfold accepted. apply Nat.ltb_lt.
  - apply page_marker_inj.
Qed.

Lemma aggregate_of_accepted_pages_witness :
  fst (ocr_extraction Samples.world_3_pages (file_path Samples.upload) Samples.st_uploaded)
  = inr (spec_aggregate (recognized_pages (tesseract Samples.world_3_pages) 3)).
Proof.
  apply (aggregate_of_accepted_pages Samples.world_3_pages (file_path Samples.upload)
           (map Samples.page_png [1; 2; 3]) Samples.st_uploaded).
  reflexivity.
Defined.

(** C4: when exactly one page, [k], of a document fails to be recognized (the
    document may have any number of pages, two or more in particular), the
    recognizer is still run on every other page, and the aggregate holds one
    entry for each other page that passes the per-page check, in ascending page
    order, and nothing for page [k]. *)
Theorem one_failing_page_is_isolated (w : World) (pdfPath : path)
    (imagePaths : list path) (st : State) (k : nat) (e : exn)
    (texts : nat -> jsstring) :
  bulk_result w pdfPath = inr imagePaths ->
  k < length imagePaths ->
  recognized (tesseract w k) = inl e ->
  (forall j, j < length imagePaths -> j <> k ->
             recognized (tesseract w j) = inr (texts j)) ->
  fst (ocr_extraction w pdfPath st)
  = inr (join (LF ++ LF)
           (map (fun j => page_marker (j + 1) ++ LF ++ trim (texts j))
              (List.filter (fun j => negb (j =? k) && (10 <? length (trim (texts j))))
                 (seq 0 (length imagePaths)))))
  /\ (forall j p, imagePaths !! j = Some p -> j <> k ->
                  In (EvRecognize p) (log (snd (ocr_extraction w pdfPath st)))).
Proof.
  intros Hr Hk He Hothers.
  rewrite (ocr_extraction_run_ok w pdfPath imagePaths st Hr). cbn [fst snd log].
  split.
  - unfold aggregate, loop_pushes.
    rewrite (pushes_one_failure (tesseract w) texts k e); [|exact He|].
    + do 2 f_equal. apply map_ext. intros j.
      rewrite page_entry_marked. reflexivity.
    + intros j Hj. apply in_seq in Hj. apply Hothers. lia.
  - intros j p Hj Hne. rewrite !in_app_iff. right. right. left.
    apply (loop_calls_lookup (tesseract w) imagePaths 0 j p Hj).
    apply (recognized_calls _ (texts j)). apply Hothers; [|exact Hne].
    apply lookup_lt_Some in Hj. exact Hj.
Qed.

Lemma one_failing_page_is_isolated_witness :
  fst (ocr_extraction Samples.world_3_pages (file_path Samples.upload) Samples.st_uploaded)
  = inr (join (LF ++ LF)
           (map (fun j => page_marker (j + 1) ++ LF ++ trim (Samples.texts_3_pages j))
              (List.filter
                 (fun j => negb (j =? 1) && (10 <? length (trim (Samples.texts_3_pages j))))
                 (seq 0 (length (map Samples.page_png [1; 2; 3])))))).
Proof.
  refine (proj1 (one_failing_page_is_isolated Samples.world_3_pages
                   (file_path Samples.upload) (map Samples.page_png [1; 2; 3])
                   Samples.st_uploaded 1 (lit "recognize failed")
                   Samples.texts_3_pages _ _ _ _)).
  - reflexivity.
  - simpl. lia.
  - reflexivity.
  - intros [|[|[|j]]] Hlt Hne; simpl in Hlt; try reflexivity; lia.
Defined.

(** C6: when the recognition pipeline runs and every page either fails or
    does not pass the per-page check, the aggregate is the empty string, the
    final check rejects it and the request is answered with the
    extraction-failure response. *)
Theorem no_accepted_page_fails_request (w : World) (req : request) (f : File)
    (e : exn) (imagePaths : list path) (st : State) :
  req_file req = Some f ->
  basic_result w (file_path f) = inl e ->
  bulk_result w (file_path f) = inr imagePaths ->
  (forall j, j < length imagePaths ->
     match recognized (tesseract w j) with
     | inr pageText => length (trim pageText) <= 10
     | inl _ => True
     end) ->
  fst (ocr_extraction w (file_path f) st) = inr []
  /\ extraction_failed [] = true
  /\ fst (ocr_handler w req st)
     = inr (JsonError 500 (lit "Text extraction failed")
              (Some (lit "Unable to extract meaningful text from PDF"))).
Proof.
  intros Hf Hb Hr Hpages.
  assert (Hagg : aggregate (tesseract w) (length imagePaths) = []).
  { unfold aggregate, loop_pushes. rewrite pushes_none; [reflexivity|].
    intros j Hj. apply in_seq in Hj. specialize (Hpages j ltac:(lia)).
    destruct (recognized (tesseract w j)) as [?|t]; [exact I|].
    unfold page_accepted. apply Nat.ltb_ge. exact Hpages. }
  rewrite (ocr_extraction_run_ok w _ imagePaths st Hr),
    (ocr_handler_ocr w req f e imagePaths st Hf Hb Hr), Hagg.
  repeat split.
Qed.

Lemma no_accepted_page_fails_request_witness :
  fst (ocr_handler Samples.world_blank Samples.req_scan Samples.st_uploaded)
  = inr (JsonError 500 (lit "Text extraction failed")
           (Some (lit "Unable to extract meaningful text from PDF"))).
Proof.
  refine (proj2 (proj2 (no_accepted_page_fails_request Samples.world_blank
                          Samples.req_scan Samples.upload
                          (lit "Basic extraction insufficient, trying OCR")
                          (map Samples.page_png [1; 2]) Samples.st_uploaded
                          _ _ _ _))).
  - reflexivity.
  - vm_compute. reflexivity.
  - reflexivity.
  - intros [|[|j]] Hlt; simpl in Hlt; [exact I | vm_compute; lia | lia].
Defined.

(** ** One tier per request *)

Section Tiers.

Variable w : World.

Lemma basic_result_accepted pdfPath t :
  basic_result w pdfPath = inr t ->
  exists buf d s,
    readFile_result w pdfPath = inr buf
    /\ pdfParse_result w buf = inr d
    /\ pdf_text d = Some s
    /\ 100 < length (trim s)
    /\ t = trim s.
Proof.
  unfold basic_result, basic_extraction, fs_readFile, pdfParse. run_monad.
  destruct (readFile_result w pdfPath) as [e|buf]; simpl; [discriminate|].
  destruct (pdfParse_result w buf) as [e|[[s|]]] eqn:Hd; simpl; try discriminate.
  destruct (truthy s && (100 <? length (trim s))) eqn:Hs; simpl; [|discriminate].
  intros [= <-]. exists buf, (mkPdfData (Some s)), s.
  apply andb_prop in Hs. destruct Hs as [_ Hs]. apply Nat.ltb_lt in Hs. auto.
Qed.

Lemma basic_calls_no_recognition pdfPath :
  forallb (fun ev => negb (recognition_call ev)) (basic_calls w pdfPath) = true.
Proof.
  unfold basic_calls, basic_extraction, fs_readFile, pdfParse. run_monad.
  destruct (readFile_result w pdfPath) as [e|buf]; simpl; [reflexivity|].
  destruct (pdfParse_result w buf) as [e|[[s|]]]; simpl; try reflexivity.
  destruct (truthy s && (100 <? length (trim s))); reflexivity.
Qed.

End Tiers.

(** C7: the text of a success payload comes from one tier only.  When the
    basic extraction is accepted it is the trimmed text of the PDF, and neither
    the renderer nor the recognizer is called; otherwise it is the trimmed
    aggregate of the recognized pages, in which the text of the PDF has no
    part. *)
Theorem text_comes_from_one_tier (w : World) (req : request) (st : State)
    (body : SuccessBody) :
  fst (ocr_handler w req st) = inr (JsonOk body) ->
  exists f,
    req_file req = Some f
    /\ match basic_result w (file_path f) with
       | inr t =>
           text body = t
           /\ (exists buf d s,
                 readFile_result w (file_path f) = inr buf
                 /\ pdfParse_result w buf = inr d
                 /\ pdf_text d = Some s
                 /\ t = trim s)
           /\ (exists calls,
                 log (snd (ocr_handler w req st)) = log st ++ calls
                 /\ forallb (fun ev => negb (recognition_call ev)) calls = true)
       | inl _ =>
           exists imagePaths,
             bulk_result w (file_path f) = inr imagePaths
             /\ text body
                = trim (spec_aggregate
                          (recognized_pages (tesseract w) (length imagePaths)))
       end.
Proof.
  intros H.
  destruct (ocr_handler_success w req st body H)
    as (f & t & Hf & _ & -> & [Hb|(e & ps & Hb & Hr & ->)]).
  - exists f. split; [exact Hf|]. rewrite Hb.
    destruct (basic_result_accepted w _ _ Hb) as (buf & d & s & Hbuf & Hd & Hs & _ & ->).
    split; [apply trim_idempotent|]. split; [eauto 10|].
    rewrite (ocr_handler_basic w req f (trim s) st Hf Hb). cbn [snd log].
    eexists. split; [reflexivity|].
    rewrite forallb_app, basic_calls_no_recognition. reflexivity.
  - exists f. split; [exact Hf|]. rewrite Hb. exists ps. split; [exact Hr|].
    cbn [text success_body]. rewrite aggregate_spec. reflexivity.
Qed.

Lemma text_comes_from_one_tier_witness :
  exists f,
    req_file Samples.req_scan = Some f
    /\ match basic_result Samples.world_35 (file_path f) with
       | inr t =>
           text (success_body Samples.upload (lit "unknown") Samples.candidate_35) = t
           /\ (exists buf d s,
                 readFile_result Samples.world_35 (file_path f) = inr buf
                 /\ pdfParse_result Samples.world_35 buf = inr d
                 /\ pdf_text d = Some s
                 /\ t = trim s)
           /\ (exists calls,
                 log (snd (ocr_handler Samples.world_35 Samples.req_scan
                             Samples.st_uploaded))
                 = log Samples.st_uploaded ++ calls
                 /\ forallb (fun ev => negb (recognition_call ev)) calls = true)
       | inl _ =>
           exists imagePaths,
             bulk_result Samples.world_35 (file_path f) = inr imagePaths
             /\ text (success_body Samples.upload (lit "unknown") Samples.candidate_35)
                = trim (spec_aggregate
                          (recognized_pages (tesseract Samples.world_35)
                             (length imagePaths)))
       end.
Proof.
  refine (text_comes_from_one_tier Samples.world_35 Samples.req_scan
            Samples.st_uploaded
            (success_body Samples.upload (lit "unknown") Samples.candidate_35) _).
  vm_compute. reflexivity.
Defined.

(** ** Further properties of [extractTextWithTesseract] (lines 42-61) *)

(** The recognizer returns a text exactly when the worker is created and the
    five calls of the [try] block all resolve, [terminate] included: a
    [terminate] that rejects after a successful [recognize] loses the text. *)
Theorem recognized_iff_all_calls_resolve (k : Worker) (t : jsstring) :
  recognized k = inr t
  <-> w_createWorker k = None /\ w_loadLanguage k = None
      /\ w_initialize k = None /\ w_setParameters k = None
      /\ w_recognize k = inr t /\ w_terminate_try k = None.
Proof.
  unfold recognized, extractTextWithTesseract.
  destruct k as [[?|] [?|] [?|] [?|] [?|?] [?|] [?|]]; run_monad;
    (split; [intros H; try discriminate; injection H as ->; repeat split
            |intros (H1 & H2 & H3 & H4 & H5 & H6); try discriminate;
             injection H5 as ->; reflexivity]).
Qed.

(** When the worker cannot be created the recognizer raises that error at
    once and calls nothing else, [terminate] included. *)
Theorem createWorker_rejection_propagates (k : Worker) (imagePath : path) (e : exn) :
  w_createWorker k = Some e ->
  recognized k = inl e /\ worker_calls k imagePath = [EvCreateWorker].
Proof.
  unfold recognized, worker_calls, extractTextWithTesseract.
  destruct k as [c l i p r t1 t2]. simpl. intros ->. run_monad. auto.
Qed.

Lemma createWorker_rejection_propagates_witness :
  recognized (mkWorker (Some (lit "out of memory")) None None None
                (inr (lit "text")) None None)
  = inl (lit "out of memory")
  /\ worker_calls (mkWorker (Some (lit "out of memory")) None None None
                     (inr (lit "text")) None None) (Samples.page_png 1)
     = [EvCreateWorker].
Proof.
  refine (createWorker_rejection_propagates _ (Samples.page_png 1) _ _).
  reflexivity.
Defined.

(** With a worker created, when a call of the [try] block rejects with [e]
    the recognizer raises [e], unless the [terminate] of the [catch] block
    rejects too: then that second error is raised in place of [e]. *)
Theorem cleanup_error_masks_original (k : Worker) (e : exn) :
  w_createWorker k = None ->
  first_rejection k = Some e ->
  recognized k = inl (match w_terminate_catch k with
                      | Some e' => e'
                      | None => e
                      end).
Proof.
  unfold recognized, first_rejection, extractTextWithTesseract.
  destruct k as [[?|] [?|] [?|] [?|] [?|?] [?|] [?|]]; run_monad;
    intros Hc Hf; try discriminate; injection Hf as ->; reflexivity.
Qed.

Lemma cleanup_error_masks_original_witness :
  recognized (mkWorker None None None None (inl (lit "bad image")) None
                (Some (lit "worker gone")))
  = inl (lit "worker gone").
Proof.
  refine (cleanup_error_masks_original
            (mkWorker None None None None (inl (lit "bad image")) None
               (Some (lit "worker gone"))) (lit "bad image") _ _);
    reflexivity.
Defined.

(** [terminate] is called once per created worker, and a second time exactly
    when the first [terminate], the one that follows a successful [recognize],
    rejects. *)
Theorem terminate_call_count (k : Worker) (imagePath : path) :
  w_createWorker k = None ->
  length (List.filter is_terminate (worker_calls k imagePath))
  = match w_loadLanguage k, w_initialize k, w_setParameters k,
          w_recognize k, w_terminate_try k with
    | None, None, None, inr _, Some _ => 2
    | _, _, _, _, _ => 1
    end.
Proof.
  unfold worker_calls, extractTextWithTesseract.
  destruct k as [[?|] [?|] [?|] [?|] [?|?] [?|] [?|]]; run_monad;
    intros Hc; try discriminate; reflexivity.
Qed.

Lemma terminate_call_count_witness :
  length (List.filter is_terminate
            (worker_calls (mkWorker None None None None (inr (lit "text"))
                             (Some (lit "worker gone")) None)
               (Samples.page_png 1)))
  = 2.
Proof.
  refine (terminate_call_count
            (mkWorker None None None None (inr (lit "text"))
               (Some (lit "worker gone")) None) (Samples.page_png 1) _).
  reflexivity.
Defined.

(** ** Further properties of the handler of [POST /ocr] (lines 79-164) *)

Section TidyStrings.

Lemma trim_fixed s : no_leading_ws s -> no_trailing_ws s -> trim s = s.
Proof.
  intros Hl Ht. unfold trim. rewrite (trimStart_fixed _ Hl).
  unfold trimEnd. rewrite (trimStart_fixed _ Ht). apply rev_involutive.
Qed.

Lemma tidy_trim s : tidy s -> trim s = s.
Proof. intros (_ & Hl & Ht). apply trim_fixed; assumption. Qed.

Lemma trim_tidy s : trim s <> [] -> tidy (trim s).
Proof.
  intros H. split; [exact H|]. split; [apply trim_no_leading | apply trim_no_trailing].
Qed.

Lemma tidy_app a m b : tidy a -> tidy b -> tidy (a ++ m ++ b).
Proof.
  intros (Ha & Hla & _) (Hb & _ & Htb). unfold tidy, no_trailing_ws in *.
  destruct a as [|c a]; [congruence|]. split; [discriminate|]. split; [exact Hla|].
  rewrite !rev_app_distr.
  destruct (rev b) as [|d b'] eqn:Hr.
  - apply (f_equal (@rev N)) in Hr. rewrite rev_involutive in Hr. simpl in Hr. congruence.
  - exact Htb.
Qed.

Lemma join_tidy sep (parts : list jsstring) :
  parts <> [] -> Forall tidy parts -> tidy (join sep parts).
Proof.
  induction parts as [|x rest IH]; intros Hne Hall; [congruence|].
  apply Forall_cons_iff in Hall. destruct Hall as [Hx Hrest].
  destruct rest as [|y rest]; [exact Hx|].
  change (join sep (x :: y :: rest)) with (x ++ sep ++ join sep (y :: rest)).
  apply tidy_app; [exact Hx|]. apply IH; [discriminate | exact Hrest].
Qed.

Lemma page_entry_tidy i t : page_accepted t = true -> tidy (page_entry i t).
Proof.
  intros Ha. unfold page_accepted in Ha. apply Nat.ltb_lt in Ha.
  assert (Ht : tidy (trim t)).
  { apply trim_tidy. intros E. rewrite E in Ha. simpl in Ha. lia. }
  assert (E : page_entry i t
              = [45%N] ++ ([45; 45; 32; 80; 97; 103; 101; 32]%N ++ of_nat (i + 1)
                             ++ lit " ---" ++ LF) ++ trim t).
  { unfold page_entry. rewrite <- !app_assoc. reflexivity. }
  rewrite E. apply tidy_app; [|exact Ht].
  split; [discriminate|]. split; reflexivity.
Qed.

Lemma page_entry_length i t :
  length (page_entry i t) = 14 + length (of_nat (i + 1)) + length (trim t).
Proof. unfold page_entry. rewrite !length_app. simpl. lia. Qed.

Lemma loop_pushes_tidy tess i n : Forall tidy (loop_pushes tess i n).
Proof.
  unfold loop_pushes. apply Forall_forall. intros e He.
  apply list_elem_of_In, in_flat_map in He. destruct He as (j & _ & He).
  unfold page_pushes in He. destruct (recognized (tess j)) as [?|t]; [destruct He|].
  destruct (page_accepted t) eqn:Ha; [|destruct He].
  destruct He as [<-|[]]. apply page_entry_tidy, Ha.
Qed.

(** Trimming leaves the aggregate as it is. *)
Lemma aggregate_trim tess n : trim (aggregate tess n) = aggregate tess n.
Proof.
  unfold aggregate. destruct (loop_pushes tess 0 n) as [|x rest] eqn:E; [reflexivity|].
  apply tidy_trim, join_tidy; [discriminate|]. rewrite <- E. apply loop_pushes_tidy.
Qed.

Lemma basic_result_trimmed w pdfPath t :
  basic_result w pdfPath = inr t -> trim t = t /\ 100 < length t.
Proof.
  intros H. destruct (basic_result_accepted w _ _ H) as (_ & _ & s & _ & _ & _ & Hs & ->).
  split; [apply trim_idempotent | exact Hs].
Qed.

End TidyStrings.

(** A text layer that passes the check of line 96 is never rejected by the
    final check of line 134: the request succeeds and returns that text, of
    more than 100 characters. *)
Theorem accepted_text_layer_always_succeeds (w : World) (req : request) (f : File)
    (t : jsstring) (st : State) :
  req_file req = Some f ->
  basic_result w (file_path f) = inr t ->
  exists body,
    fst (ocr_handler w req st) = inr (JsonOk body)
    /\ text body = t
    /\ textLength body = length t
    /\ 100 < textLength body.
Proof.
  intros Hf Hb. destruct (basic_result_trimmed w _ _ Hb) as [Ht Hlen].
  rewrite (ocr_handler_basic w req f t st Hf Hb). cbn [fst].
  unfold final_response. rewrite extraction_failed_spec, Ht.
  replace (length t <? 50) with false by (symmetry; apply Nat.ltb_ge; lia).
  eexists. split; [reflexivity|]. cbn [text textLength success_body].
  rewrite Ht. auto.
Qed.

Lemma accepted_text_layer_always_succeeds_witness :
  exists body,
    fst (ocr_handler Samples.world_text_101 Samples.req_scan Samples.st_uploaded)
    = inr (JsonOk body)
    /\ text body = Samples.letters 101
    /\ textLength body = length (Samples.letters 101)
    /\ 100 < textLength body.
Proof.
  refine (accepted_text_layer_always_succeeds Samples.world_text_101
            Samples.req_scan Samples.upload (Samples.letters 101)
            Samples.st_uploaded _ _).
  - reflexivity.
  - vm_compute. reflexivity.
Defined.

(** A success payload always has [success] set, the uploaded file's original
    name, and a text of at least 50 characters. *)
Theorem success_payload_at_least_50 (w : World) (req : request) (st : State)
    (body : SuccessBody) :
  fst (ocr_handler w req st) = inr (JsonOk body) ->
  success body = true
  /\ 50 <= textLength body
  /\ exists f, req_file req = Some f /\ filename body = file_originalname f.
Proof.
  intros H. destruct (ocr_handler_success w req st body H) as (f & t & Hf & Hx & -> & _).
  rewrite extraction_failed_spec in Hx. apply Nat.ltb_ge in Hx.
  cbn. split; [reflexivity|]. split; [exact Hx|]. exists f. auto.
Qed.

Lemma success_payload_at_least_50_witness :
  success (success_body Samples.upload (lit "unknown") Samples.candidate_35) = true
  /\ 50 <= textLength (success_body Samples.upload (lit "unknown") Samples.candidate_35)
  /\ exists f, req_file Samples.req_scan = Some f
               /\ filename (success_body Samples.upload (lit "unknown")
                              Samples.candidate_35) = file_originalname f.
Proof.
  refine (success_payload_at_least_50 Samples.world_35 Samples.req_scan
            Samples.st_uploaded _ _).
  vm_compute. reflexivity.
Defined.

(** The handler answers with status 400 exactly when no file was uploaded;
    it then calls no collaborator and leaves the files as they are. *)
Theorem bad_request_iff_no_file (w : World) (req : request) (st : State) :
  (exists r, fst (ocr_handler w req st) = inr r /\ status_of r = 400)
  <-> req_file req = None
      /\ ocr_handler w req st
         = (inr bad_request, mkState (files st) (log st ++ [EvRespond bad_request])).
Proof.
  split.
  - intros (r & Hr & Hs). destruct (req_file req) as [f|] eqn:Hf.
    + destruct (ocr_handler_cases w req f st Hf)
        as [(t & _ & H)|[(e & ps & _ & _ & H)|(e & e' & _ & _ & H)]];
        rewrite H in Hr; injection Hr as <-; unfold final_response in Hs;
        try destruct (extraction_failed _); discriminate.
    + split; [reflexivity|]. apply ocr_handler_no_file, Hf.
  - intros [_ H]. rewrite H. exists bad_request. auto.
Qed.

(** When the basic extraction is not accepted and the rendering raises an
    error, the handler answers 500 with that error's message, calls
    [fs.remove] on the upload and never creates a tesseract worker. *)
Theorem render_error_is_reported (w : World) (req : request) (f : File)
    (e e' : exn) (st : State) :
  req_file req = Some f ->
  truthy (file_path f) = true ->
  basic_result w (file_path f) = inl e ->
  bulk_result w (file_path f) = inl e' ->
  fst (ocr_handler w req st)
  = inr (JsonError 500 (lit "PDF processing failed") (Some e'))
  /\ exists calls,
       log (snd (ocr_handler w req st))
       = log st ++ calls
           ++ [EvRemove (file_path f);
               EvRespond (JsonError 500 (lit "PDF processing failed") (Some e'))]
       /\ forallb (fun ev => negb (worker_call ev)) calls = true.
Proof.
  intros Hf Hp Hb Hr.
  rewrite (ocr_handler_render_error w req f e e' st Hf Hb Hr), Hp. cbn [fst snd log].
  split; [reflexivity|].
  exists (basic_calls w (file_path f) ++ [EvBulk (file_path f)]).
  split; [rewrite <- !app_assoc; reflexivity|].
  rewrite forallb_app. apply andb_true_intro. split; [|reflexivity].
  pose proof (basic_calls_no_recognition w (file_path f)) as Hq.
  rewrite forallb_forall in Hq |- *. intros ev Hev. specialize (Hq ev Hev).
  destruct ev; simpl in *; congruence.
Qed.

Lemma render_error_is_reported_witness :
  fst (ocr_handler MoreSamples.world_unrenderable Samples.req_scan Samples.st_uploaded)
  = inr (JsonError 500 (lit "PDF processing failed") (Some (lit "render failed"))).
Proof.
  refine (proj1 (render_error_is_reported MoreSamples.world_unrenderable
                   Samples.req_scan Samples.upload
                   (lit "Basic extraction insufficient, trying OCR")
                   (lit "render failed") Samples.st_uploaded _ _ _ _)).
  - reflexivity.
  - reflexivity.
  - vm_compute. reflexivity.
  - reflexivity.
Defined.

Section Frame.

Variable w : World.

Lemma files_after_remove_frame p q fs calls :
  q <> p -> (q ∈ files_after_remove w p fs calls <-> q ∈ fs).
Proof.
  intros Hne. unfold files_after_remove.
  destruct (remove_rejects w calls p); set_solver.
Qed.

Lemma files_after_removes_frame imagePaths : forall q fs calls,
  ~ In q imagePaths -> (q ∈ files_after_removes w imagePaths fs calls <-> q ∈ fs).
Proof.
  induction imagePaths as [|p rest IH]; intros q fs calls Hq; simpl; [tauto|].
  rewrite IH by (intros H; apply Hq; right; exact H).
  assert (q <> p) by (intros ->; apply Hq; left; reflexivity).
  destruct (remove_rejects w calls p); set_solver.
Qed.

End Frame.

Ltac removal_free :=
  rewrite !in_app_iff; cbn [In];
  let H := fresh "H" in
  intros H; decompose [or] H; clear H;
  match goal with
  | H : In (EvRemove _) (basic_calls _ _) |- _ =>
      exact (basic_calls_no_remove _ _ _ H)
  | H : In (EvRemove _) (loop_calls _ _ _) |- _ =>
      exact (loop_calls_no_remove _ _ _ _ H)
  | H : In (EvRemove _) (map EvRemove _) |- _ =>
      apply in_map_remove in H; contradiction
  | H : False |- _ => destruct H
  | H : EvRemove _ = EvRemove _ |- _ => injection H as H; congruence
  | H : _ = _ |- _ => discriminate H
  end.

(** The handler leaves every file alone that is neither the upload nor one
    of the page images the renderer returned: it never calls [fs.remove] on
    such a file, which is on disk afterwards if and only if it was before or
    a rendering that rejected has left it there, whether removals succeed or
    not. *)
Theorem other_files_untouched (w : World) (req : request) (st : State) (q : path) :
  ~ In q (artifacts w req) ->
  (q ∈ files (snd (ocr_handler w req st))
   <-> q ∈ files st \/ In q (leftover_pages w req))
  /\ exists calls,
       log (snd (ocr_handler w req st)) = log st ++ calls
       /\ ~ In (EvRemove q) calls.
Proof.
  unfold artifacts, rendered_images, leftover_pages. intros Hq.
  destruct (req_file req) as [f|] eqn:Hf.
  2:{ rewrite (ocr_handler_no_file w req st Hf). cbn [snd files log].
      split; [simpl; tauto|].
      exists [EvRespond bad_request]. split; [reflexivity|].
      intros [H|[]]. discriminate H. }
  assert (q <> file_path f) as Hne by (intros ->; apply Hq; left; reflexivity).
  destruct (basic_result w (file_path f)) as [e|t] eqn:Hb.
  - destruct (bulk_result w (file_path f)) as [e'|ps] eqn:Hr.
    + rewrite (ocr_handler_render_error w req f e e' st Hf Hb Hr).
      destruct (truthy (file_path f)); cbn [snd files log].
      * split.
        { rewrite files_after_remove_frame by exact Hne.
          rewrite <- list_elem_of_In. set_solver. }
        eexists. split; [reflexivity|]. removal_free.
      * split.
        { rewrite <- list_elem_of_In. set_solver. }
        eexists. split; [reflexivity|]. removal_free.
    + assert (~ In q ps) as Hps by (intros H; apply Hq; right; exact H).
      rewrite (ocr_handler_ocr w req f e ps st Hf Hb Hr). cbn [snd files log].
      split.
      { rewrite files_after_remove_frame by exact Hne.
        rewrite files_after_removes_frame by exact Hps.
        assert (q ∉ ps) by (rewrite list_elem_of_In; exact Hps).
        simpl. set_solver. }
      eexists. split; [reflexivity|]. removal_free.
  - rewrite (ocr_handler_basic w req f t st Hf Hb). cbn [snd files log].
    split.
    { rewrite files_after_remove_frame by exact Hne. simpl. tauto. }
    eexists. split; [reflexivity|]. removal_free.
Qed.

(** Somebody else's upload survives a request whose rendering fails half-way. *)
Lemma other_files_untouched_witness :
  (MoreSamples.other_upload
     ∈ files (snd (ocr_handler MoreSamples.world_partial_render Samples.req_scan
                     MoreSamples.st_two_uploads))
   <-> MoreSamples.other_upload ∈ files MoreSamples.st_two_uploads
       \/ In MoreSamples.other_upload
            (leftover_pages MoreSamples.world_partial_render Samples.req_scan))
  /\ exists calls,
       log (snd (ocr_handler MoreSamples.world_partial_render Samples.req_scan
                   MoreSamples.st_two_uploads))
       = log MoreSamples.st_two_uploads ++ calls
       /\ ~ In (EvRemove MoreSamples.other_upload) calls.
Proof.
  refine (other_files_untouched MoreSamples.world_partial_render Samples.req_scan
            MoreSamples.st_two_uploads MoreSamples.other_upload _).
  vm_compute. intros [H|[]]. discriminate H.
Defined.

(** On the recognition path the text of a success payload is the aggregate
    itself, untouched by the trimming of line 144: it begins with the marker of
    its first page and its length is the aggregate's. *)
Theorem recognized_text_is_the_aggregate (w : World) (req : request) (f : File)
    (e : exn) (imagePaths : list path) (st : State) (body : SuccessBody) :
  req_file req = Some f ->
  basic_result w (file_path f) = inl e ->
  bulk_result w (file_path f) = inr imagePaths ->
  fst (ocr_handler w req st) = inr (JsonOk body) ->
  text body = spec_aggregate (recognized_pages (tesseract w) (length imagePaths))
  /\ textLength body = length (text body)
  /\ exists rest, text body = lit "--- Page " ++ rest.
Proof.
  intros Hf Hb Hr H.
  rewrite (ocr_handler_ocr w req f e imagePaths st Hf Hb Hr) in H. cbn [fst] in H.
  unfold final_response in H.
  destruct (extraction_failed (aggregate (tesseract w) (length imagePaths))) eqn:Hx;
    [discriminate|].
  injection H as <-. cbn [text textLength success_body].
  rewrite aggregate_trim, <- aggregate_spec. split; [reflexivity|]. split; [reflexivity|].
  unfold aggregate in *.
  destruct (loop_pushes (tesseract w) 0 (length imagePaths)) as [|x rest] eqn:E;
    [discriminate|].
  assert (Hin : In x (loop_pushes (tesseract w) 0 (length imagePaths)))
    by (rewrite E; left; reflexivity).
  unfold loop_pushes in Hin. apply in_flat_map in Hin. destruct Hin as (j & _ & Hin).
  unfold page_pushes in Hin. destruct (recognized (tesseract w j)) as [?|t]; [destruct Hin|].
  destruct (page_accepted t); [|destruct Hin]. destruct Hin as [<-|[]].
  destruct rest as [|y rest]; unfold page_entry; cbn [join];
    rewrite <- ?app_assoc; eexists; reflexivity.
Qed.

Lemma recognized_text_is_the_aggregate_witness :
  text (success_body Samples.upload (lit "unknown") Samples.candidate_35)
  = spec_aggregate (recognized_pages (tesseract Samples.world_35)
                      (length (map Samples.page_png [1])))
  /\ textLength (success_body Samples.upload (lit "unknown") Samples.candidate_35)
     = length (text (success_body Samples.upload (lit "unknown") Samples.candidate_35))
  /\ exists rest,
       text (success_body Samples.upload (lit "unknown") Samples.candidate_35)
       = lit "--- Page " ++ rest.
Proof.
  refine (recognized_text_is_the_aggregate Samples.world_35 Samples.req_scan
            Samples.upload (lit "Basic extraction insufficient, trying OCR")
            (map Samples.page_png [1]) Samples.st_uploaded _ _ _ _ _).
  - reflexivity.
  - vm_compute. reflexivity.
  - reflexivity.
  - vm_compute. reflexivity.
Defined.

(** The page marker counts towards the final threshold: a scanned document
    of one page succeeds exactly when the page's trimmed text has 35 characters
    or more (15 more come from the marker line), and fails with the
    extraction-failure response otherwise. *)
Theorem single_page_needs_35_characters (w : World) (req : request) (f : File)
    (e : exn) (p : path) (t : jsstring) (st : State) :
  req_file req = Some f ->
  basic_result w (file_path f) = inl e ->
  bulk_result w (file_path f) = inr [p] ->
  recognized (tesseract w 0) = inr t ->
  (35 <= length (trim t) ->
     exists body, fst (ocr_handler w req st) = inr (JsonOk body)
                  /\ textLength body = 15 + length (trim t))
  /\ (length (trim t) < 35 ->
        fst (ocr_handler w req st)
        = inr (JsonError 500 (lit "Text extraction failed")
                 (Some (lit "Unable to extract meaningful text from PDF")))).
Proof.
  intros Hf Hb Hr Ht.
  rewrite (ocr_handler_ocr w req f e [p] st Hf Hb Hr). cbn [fst length].
  unfold final_response. rewrite extraction_failed_spec, aggregate_trim.
  unfold aggregate, loop_pushes. cbn [seq flat_map]. unfold page_pushes.
  rewrite Ht, app_nil_r. unfold page_accepted.
  destruct (10 <? length (trim t)) eqn:Ha; cbn [join length].
  - rewrite page_entry_length. change (length (of_nat (0 + 1))) with 1.
    split; intros Hlen.
    + replace (14 + 1 + length (trim t) <? 50) with false
        by (symmetry; apply Nat.ltb_ge; lia).
      eexists. split; [reflexivity|]. cbn [textLength success_body].
      rewrite tidy_trim by (apply page_entry_tidy; exact Ha).
      rewrite page_entry_length. reflexivity.
    + replace (14 + 1 + length (trim t) <? 50) with true
        by (symmetry; apply Nat.ltb_lt; lia).
      reflexivity.
  - apply Nat.ltb_ge in Ha. split; intros Hlen; [lia | reflexivity].
Qed.

Lemma single_page_needs_35_characters_witness :
  exists body,
    fst (ocr_handler Samples.world_35 Samples.req_scan Samples.st_uploaded)
    = inr (JsonOk body)
    /\ textLength body = 15 + length (trim (Samples.letters 35)).
Proof.
  refine (proj1 (single_page_needs_35_characters Samples.world_35 Samples.req_scan
                   Samples.upload (lit "Basic extraction insufficient, trying OCR")
                   (Samples.page_png 1) (Samples.letters 35) Samples.st_uploaded
                   _ _ _ _) _).
  - reflexivity.
  - vm_compute. reflexivity.
  - reflexivity.
  - reflexivity.
  - vm_compute. lia.
Defined.

Section WorkersOfTheLoop.

Variable tess : nat -> Worker.

Lemma worker_calls_one_create k imagePath :
  length (List.filter is_createWorker (worker_calls k imagePath)) = 1
  /\ forallb worker_call (worker_calls k imagePath) = true.
Proof.
  unfold worker_calls, extractTextWithTesseract.
  destruct k as [[?|] [?|] [?|] [?|] [?|?] [?|] [?|]]; split; reflexivity.
Qed.

Lemma loop_calls_one_create_each imagePaths : forall i,
  length (List.filter is_createWorker (loop_calls tess imagePaths i)) = length imagePaths
  /\ forallb worker_call (loop_calls tess imagePaths i) = true.
Proof.
  induction imagePaths as [|p rest IH]; intros i; [split; reflexivity|].
  cbn [loop_calls length]. destruct (IH (S i)) as [IH1 IH2].
  destruct (worker_calls_one_create (tess i) p) as [H1 H2].
  rewrite List.filter_app, length_app, forallb_app, H1, H2, IH1, IH2. auto.
Qed.

End WorkersOfTheLoop.

(** After the rendering, the recognition pipeline creates exactly one worker
    per page image and calls nothing but workers until the last page is done;
    only then does it call [fs.remove], once per page image, in page order. *)
Theorem one_worker_per_page_then_cleanup (w : World) (pdfPath : path)
    (imagePaths : list path) (st : State) :
  bulk_result w pdfPath = inr imagePaths ->
  exists calls,
    log (snd (ocr_extraction w pdfPath st))
    = log st ++ EvBulk pdfPath :: calls ++ map EvRemove imagePaths
    /\ forallb worker_call calls = true
    /\ length (List.filter is_createWorker calls) = length imagePaths.
Proof.
  intros Hr. rewrite (ocr_extraction_run_ok w pdfPath imagePaths st Hr). cbn [snd log].
  exists (loop_calls (tesseract w) imagePaths 0).
  destruct (loop_calls_one_create_each (tesseract w) imagePaths 0) as [H1 H2].
  auto.
Qed.

Lemma one_worker_per_page_then_cleanup_witness :
  exists calls,
    log (snd (ocr_extraction Samples.world_3_pages (file_path Samples.upload)
                Samples.st_uploaded))
    = log Samples.st_uploaded
        ++ EvBulk (file_path Samples.upload)
        :: calls ++ map EvRemove (map Samples.page_png [1; 2; 3])
    /\ forallb worker_call calls = true
    /\ length (List.filter is_createWorker calls)
       = length (map Samples.page_png [1; 2; 3]).
Proof.
  refine (one_worker_per_page_then_cleanup Samples.world_3_pages
            (file_path Samples.upload) (map Samples.page_png [1; 2; 3])
            Samples.st_uploaded _).
  reflexivity.
Defined.

(** ** The extraction of the JSON text (lines 253-257 of the second file) *)

Section RegexFacts.

Context {R : Type}.

(** A greedy repetition that can take a whole run and go on from its end
    does so. *)
Lemma star_greedy_run cls (run rest : jsstring) (k : jsstring -> option R) r :
  Forall (fun c => cls c = true) run ->
  k rest = Some r ->
  match rest with c :: _ => cls c = false | [] => True end ->
  star_greedy cls (run ++ rest) k = Some r.
Proof.
  intros Hrun Hk Hrest. induction Hrun as [|c run Hc _ IH]; simpl.
  - destruct rest as [|c rest]; simpl; [exact Hk|]. rewrite Hrest. exact Hk.
  - rewrite Hc, IH. reflexivity.
Qed.

(** A greedy repetition fails when what follows fails after every run it can
    take. *)
Lemma star_greedy_fails cls (s : jsstring) (k : jsstring -> option R) :
  (forall s1 s2, s = s1 ++ s2 -> Forall (fun c => cls c = true) s1 -> k s2 = None) ->
  star_greedy cls s k = None.
Proof.
  induction s as [|c s IH]; intros Hk; simpl.
  - apply (Hk [] []); [reflexivity | constructor].
  - destruct (cls c) eqn:Hc.
    + rewrite IH.
      * apply (Hk [] (c :: s)); [reflexivity | constructor].
      * intros s1 s2 -> Hs1. apply (Hk (c :: s1) s2); [reflexivity|].
        constructor; assumption.
    + apply (Hk [] (c :: s)); [reflexivity | constructor].
Qed.

(** A greedy repetition of any character gives back as little as it can: it
    stops at the last place from which what follows succeeds. *)
Lemma star_greedy_any_last (u v : jsstring) (k : jsstring -> option R) r :
  k v = Some r ->
  (forall v1 v2, v = v1 ++ v2 -> v1 <> [] -> k v2 = None) ->
  star_greedy any (u ++ v) k = Some r.
Proof.
  intros Hk Hlater. induction u as [|c u IH]; simpl.
  - destruct v as [|c v]; simpl; [exact Hk|].
    rewrite star_greedy_fails; [exact Hk|].
    intros s1 s2 -> _. apply (Hlater (c :: s1) s2); [reflexivity | discriminate].
  - rewrite IH. reflexivity.
Qed.

(** A lazy repetition stops at the first place from which what follows
    succeeds. *)
Lemma star_lazy_first (u rest : jsstring) (k : jsstring -> option R) r :
  (forall u1 u2, u = u1 ++ u2 -> u2 <> [] -> k (u2 ++ rest) = None) ->
  k rest = Some r ->
  star_lazy any (u ++ rest) k = Some r.
Proof.
  intros Hearlier Hk. induction u as [|c u IH].
  - simpl. destruct rest; simpl; rewrite Hk; reflexivity.
  - cbn [app star_lazy].
    pose proof (Hearlier [] (c :: u) eq_refl ltac:(discriminate)) as H0.
    cbn [app] in H0. rewrite H0. cbn [any].
    apply IH. intros u1 u2 -> Hne. apply (Hearlier (c :: u1) u2); [reflexivity | exact Hne].
Qed.

End RegexFacts.

Section FencedJson.

Lemma startsWith_nil s : startsWith s [] = true.
Proof. destruct s; reflexivity. Qed.

Lemma startsWith_other c s d p : d <> c -> startsWith (c :: s) (d :: p) = false.
Proof. intros H. simpl. apply N.eqb_neq in H. rewrite H. reflexivity. Qed.

(** A string that ends with a character other than whitespace has no suffix
    made of whitespace only, the empty one apart. *)
Lemma suffix_not_blank p p1 p2 :
  no_trailing_ws p -> p = p1 ++ p2 -> p2 <> [] ->
  ~ Forall (fun c => is_ws c = true) p2.
Proof.
  unfold no_trailing_ws. intros Hp -> Hne Hall.
  rewrite rev_app_distr in Hp. apply Forall_rev in Hall.
  destruct (rev p2) as [|c r] eqn:E.
  - apply (f_equal (@rev N)) in E. rewrite rev_involutive in E. simpl in E. congruence.
  - simpl in Hp. apply Forall_inv in Hall. congruence.
Qed.

Lemma take_prefix (a b : jsstring) :
  firstn (length (a ++ b) - length b) (a ++ b) = a.
Proof.
  rewrite length_app. replace (length a + length b - length b) with (length a) by lia.
  apply take_app_length.
Qed.

Lemma match_at_fenced_other c s :
  c <> backtick -> match_at fenced_json (c :: s) = None.
Proof.
  intros H. unfold match_at, fenced_json. cbn [exec].
  change (fence ++ lit "json") with (backtick :: [96; 96; 106; 115; 111; 110]%N).
  rewrite startsWith_other by congruence. reflexivity.
Qed.

Lemma js_match_skip r (pre rest : jsstring) :
  (forall c s, In c pre -> match_at r (c :: s) = None) ->
  js_match r (pre ++ rest) = js_match r rest.
Proof.
  intros H. induction pre as [|c pre IH]; [reflexivity|].
  cbn [app js_match]. rewrite (H c (pre ++ rest)) by (left; reflexivity).
  apply IH. intros d s Hd. apply H. right. exact Hd.
Qed.

Lemma js_match_fenced_none (s : jsstring) :
  Forall (fun c => c <> backtick) s -> js_match fenced_json s = None.
Proof.
  intros H. induction H as [|c s Hc _ IH]; [reflexivity|].
  cbn [js_match]. rewrite (match_at_fenced_other c s Hc). exact IH.
Qed.

Lemma match_at_fenced ws1 p ws2 post :
  Forall (fun c => is_ws c = true) ws1 ->
  Forall (fun c => is_ws c = true) ws2 ->
  tidy p ->
  Forall (fun c => c <> backtick) p ->
  match_at fenced_json (fence ++ lit "json" ++ ws1 ++ p ++ ws2 ++ fence ++ post)
  = Some (fence ++ lit "json" ++ ws1 ++ p ++ ws2 ++ fence, Some p).
Proof.
  intros Hws1 Hws2 (Hne & Hlead & Htrail) Hbt.
  unfold match_at, fenced_json. cbn [exec].
  set (X := ws1 ++ p ++ ws2 ++ fence ++ post).
  change (fence ++ lit "json" ++ X) with ([96; 96; 96; 106; 115; 111; 110]%N ++ X).
  change (fence ++ lit "json") with ([96; 96; 96; 106; 115; 111; 110]%N).
  cbn [startsWith app N.eqb Pos.eqb andb length skipn].
  rewrite startsWith_nil. subst X.
  apply star_greedy_run; [exact Hws1| |destruct p; [congruence | exact Hlead]].
  apply star_lazy_first.
  - intros p1 p2 -> Hp2. apply star_greedy_fails. intros s1 s2 Hsplit Hs1.
    apply app_eq_app in Hsplit.
    destruct Hsplit as (l & [[-> ->]|[-> ->]]).
    + destruct l as [|c l].
      * exfalso. rewrite app_nil_r in *.
        exact (suffix_not_blank _ p1 s1 Htrail eq_refl Hp2 Hs1).
      * cbv beta. cbn [app]. unfold fence. rewrite startsWith_other; [reflexivity|].
        rewrite !Forall_app in Hbt. destruct Hbt as (_ & _ & Hc).
        apply Forall_inv in Hc. congruence.
    + exfalso. apply Forall_app in Hs1. destruct Hs1 as [Hs1 _].
      exact (suffix_not_blank _ p1 p2 Htrail eq_refl Hp2 Hs1).
  - rewrite (star_greedy_run is_ws ws2 (fence ++ post) _
               (fence ++ lit "json" ++ ws1 ++ p ++ ws2 ++ fence, Some p));
      [reflexivity | exact Hws2 | | reflexivity].
    cbn [fence app startsWith N.eqb Pos.eqb andb backtick].
    rewrite startsWith_nil.
    change (skipn (length fence) (backtick :: backtick :: backtick :: post)) with post.
    f_equal. f_equal; [|f_equal; apply take_prefix].
    transitivity
      (firstn (length ((fence ++ lit "json" ++ ws1 ++ p ++ ws2 ++ fence) ++ post)
               - length post)
         ((fence ++ lit "json" ++ ws1 ++ p ++ ws2 ++ fence) ++ post));
      [|apply take_prefix].
    f_equal.
    + rewrite !length_app. simpl. lia.
    + rewrite <- !app_assoc. reflexivity.
Qed.


Lemma js_match_here r (s : jsstring) m : match_at r s = Some m -> js_match r s = Some m.
Proof. intros H. destruct s; simpl; rewrite H; reflexivity. Qed.

Lemma star_lazy_here {R} cls (s : jsstring) (k : jsstring -> option R) r :
  k s = Some r -> star_lazy cls s k = Some r.
Proof. intros H. destruct s; simpl; rewrite H; reflexivity. Qed.

Lemma match_at_empty_fence ws post :
  Forall (fun c => is_ws c = true) ws ->
  match_at fenced_json (fence ++ lit "json" ++ ws ++ fence ++ post)
  = Some (fence ++ lit "json" ++ ws ++ fence, Some []).
Proof.
  intros Hws. unfold match_at, fenced_json. cbn [exec].
  set (X := ws ++ fence ++ post).
  change (fence ++ lit "json" ++ X) with ([96; 96; 96; 106; 115; 111; 110]%N ++ X).
  change (fence ++ lit "json") with ([96; 96; 96; 106; 115; 111; 110]%N).
  cbn [startsWith app N.eqb Pos.eqb andb length skipn].
  rewrite startsWith_nil. subst X.
  apply star_greedy_run; [exact Hws| |reflexivity].
  apply star_lazy_here.
  cbn [fence app star_greedy is_ws backtick N.leb N.eqb N.compare Pos.compare
       Pos.compare_cont Pos.eqb andb orb].
  unfold fence, backtick. cbn [startsWith N.eqb Pos.eqb andb]. rewrite startsWith_nil.
  change (skipn (length [96; 96; 96]%N) (96%N :: 96%N :: 96%N :: post)) with post.
  rewrite Nat.sub_diag. cbn [firstn]. f_equal. f_equal.
  transitivity
    (firstn (length ((fence ++ lit "json" ++ ws ++ fence) ++ post) - length post)
       ((fence ++ lit "json" ++ ws ++ fence) ++ post));
    [|apply take_prefix].
  f_equal.
  + rewrite !length_app. simpl. lia.
  + rewrite <- !app_assoc. reflexivity.
Qed.

Lemma match_at_braces_other c s : c <> 123%N -> match_at braces (c :: s) = None.
Proof.
  intros H. unfold match_at, braces. cbn [exec].
  change (lit "{") with [123%N]. rewrite startsWith_other by congruence. reflexivity.
Qed.

Lemma match_at_braces mid post :
  Forall (fun c => c <> 125%N) post ->
  match_at braces (lit "{" ++ mid ++ lit "}" ++ post)
  = Some (lit "{" ++ mid ++ lit "}", None).
Proof.
  intros Hpost. unfold match_at, braces. cbn [exec].
  change (lit "{") with [123%N]. change (lit "}") with [125%N].
  cbn [startsWith app N.eqb Pos.eqb andb length skipn].
  rewrite startsWith_nil.
  apply star_greedy_any_last.
  - cbn [startsWith N.eqb Pos.eqb andb]. rewrite startsWith_nil. cbn [length skipn].
    f_equal. f_equal.
    transitivity
      (firstn (length ((123%N :: mid ++ [125%N]) ++ post) - length post)
         ((123%N :: mid ++ [125%N]) ++ post)); [|apply take_prefix].
    f_equal.
    + change (skipn 0 post) with post. cbn [app length]. rewrite !length_app.
      cbn [length]. lia.
    + cbn [app]. rewrite <- !app_assoc. reflexivity.
  - intros v1 v2 Hv Hne. destruct v1 as [|c v1]; [congruence|].
    injection Hv as _ ->. destruct v2 as [|d v2]; [reflexivity|].
    apply Forall_app in Hpost. destruct Hpost as [_ Hd]. apply Forall_inv in Hd.
    rewrite startsWith_other by congruence. reflexivity.
Qed.

Lemma js_match_braces_none_open (s : jsstring) :
  Forall (fun c => c <> 123%N) s -> js_match braces s = None.
Proof.
  intros H. induction H as [|c s Hc _ IH]; [reflexivity|].
  cbn [js_match]. rewrite (match_at_braces_other c s Hc). exact IH.
Qed.

Lemma js_match_braces_none_close (s : jsstring) :
  Forall (fun c => c <> 125%N) s -> js_match braces s = None.
Proof.
  intros H. induction H as [|c s Hc Hs IH]; [reflexivity|].
  cbn [js_match]. rewrite IH.
  replace (match_at braces (c :: s)) with (@None (jsstring * option jsstring));
    [reflexivity|].
  symmetry. unfold match_at, braces. cbn [exec]. change (lit "{") with [123%N].
  cbn [startsWith]. destruct (123 =? c)%N; [|reflexivity].
  rewrite startsWith_nil. cbn [andb length]. change (skipn 1 (c :: s)) with s.
  apply star_greedy_fails. intros s1 s2 -> _.
  destruct s2 as [|d s2]; [reflexivity|].
  apply Forall_app in Hs. destruct Hs as [_ Hd]. apply Forall_inv in Hd.
  change (lit "}") with [125%N]. rewrite startsWith_other by congruence. reflexivity.
Qed.

End FencedJson.

Ltac each_char :=
  vm_compute;
  repeat (constructor; [first [discriminate | reflexivity]|]);
  try constructor.

(** A fenced block wins: when the answer holds [```json], blanks, a payload,
    blanks and a closing fence, what is parsed is the payload alone, whatever
    comes before the block and after it.  The payload is not empty, has no
    blank at either end and no backtick; so has the text before the block. *)
Theorem fenced_payload_is_extracted (pre ws1 p ws2 post : jsstring) :
  Forall (fun c => c <> backtick) pre ->
  Forall (fun c => is_ws c = true) ws1 ->
  Forall (fun c => is_ws c = true) ws2 ->
  tidy p ->
  Forall (fun c => c <> backtick) p ->
  extract_json (pre ++ fence ++ lit "json" ++ ws1 ++ p ++ ws2 ++ fence ++ post) = p.
Proof.
  intros Hpre Hws1 Hws2 Hp Hbt. unfold extract_json.
  rewrite js_match_skip.
  - rewrite (js_match_here _ _ _ (match_at_fenced ws1 p ws2 post Hws1 Hws2 Hp Hbt)).
    destruct Hp as (Hne & _). destruct p; [congruence | reflexivity].
  - intros c s Hc. apply match_at_fenced_other.
    rewrite Forall_forall in Hpre. apply Hpre, list_elem_of_In, Hc.
Qed.

Lemma fenced_payload_is_extracted_witness :
  extract_json (lit "Here it is: " ++ fence ++ lit "json" ++ LF
                  ++ lit "{ concepts: [] }" ++ LF ++ fence ++ lit " Enjoy.")
  = lit "{ concepts: [] }".
Proof.
  refine (fenced_payload_is_extracted (lit "Here it is: ") LF
            (lit "{ concepts: [] }") LF (lit " Enjoy.") _ _ _ _ _).
  - each_char.
  - each_char.
  - each_char.
  - repeat split. discriminate.
  - each_char.
Defined.

(** A fenced block that holds blanks only has an empty first group, which is
    falsy: line 256 then takes the whole match, and the block is parsed with
    its fences. *)
Theorem empty_fenced_block_is_kept_whole (pre ws post : jsstring) :
  Forall (fun c => c <> backtick) pre ->
  Forall (fun c => is_ws c = true) ws ->
  extract_json (pre ++ fence ++ lit "json" ++ ws ++ fence ++ post)
  = fence ++ lit "json" ++ ws ++ fence.
Proof.
  intros Hpre Hws. unfold extract_json.
  rewrite js_match_skip.
  - rewrite (js_match_here _ _ _ (match_at_empty_fence ws post Hws)). reflexivity.
  - intros c s Hc. apply match_at_fenced_other.
    rewrite Forall_forall in Hpre. apply Hpre, list_elem_of_In, Hc.
Qed.

Lemma empty_fenced_block_is_kept_whole_witness :
  extract_json (lit "Nothing: " ++ fence ++ lit "json" ++ LF ++ fence ++ [])
  = fence ++ lit "json" ++ LF ++ fence.
Proof.
  refine (empty_fenced_block_is_kept_whole (lit "Nothing: ") LF [] _ _); each_char.
Defined.

(** Without a backtick in the answer there is no fenced block, and what is
    parsed runs from the first opening brace to the last closing brace. *)
Theorem braces_fallback (pre mid post : jsstring) :
  Forall (fun c => c <> backtick) (pre ++ lit "{" ++ mid ++ lit "}" ++ post) ->
  Forall (fun c => c <> 123%N) pre ->
  Forall (fun c => c <> 125%N) post ->
  extract_json (pre ++ lit "{" ++ mid ++ lit "}" ++ post) = lit "{" ++ mid ++ lit "}".
Proof.
  intros Hbt Hpre Hpost. unfold extract_json.
  rewrite (js_match_fenced_none _ Hbt), js_match_skip.
  - rewrite (js_match_here _ _ _ (match_at_braces mid post Hpost)). reflexivity.
  - intros c s Hc. apply match_at_braces_other.
    rewrite Forall_forall in Hpre. apply Hpre, list_elem_of_In, Hc.
Qed.

Lemma braces_fallback_witness :
  extract_json (lit "Sure: " ++ lit "{" ++ lit " a: {b: 1} " ++ lit "}" ++ lit " done")
  = lit "{" ++ lit " a: {b: 1} " ++ lit "}".
Proof.
  refine (braces_fallback (lit "Sure: ") (lit " a: {b: 1} ") (lit " done") _ _ _);
    each_char.
Defined.

(** An answer with no backtick and with no opening brace, or with no closing
    brace, is parsed as it is. *)
Theorem plain_answer_is_parsed_as_is (s : jsstring) :
  Forall (fun c => c <> backtick) s ->
  Forall (fun c => c <> 123%N) s \/ Forall (fun c => c <> 125%N) s ->
  extract_json s = s.
Proof.
  intros Hbt Hbr. unfold extract_json. rewrite (js_match_fenced_none _ Hbt).
  destruct Hbr as [H|H].
  - rewrite (js_match_braces_none_open _ H). reflexivity.
  - rewrite (js_match_braces_none_close _ H). reflexivity.
Qed.

Lemma plain_answer_is_parsed_as_is_witness :
  extract_json (lit "{ never closed") = lit "{ never closed".
Proof.
  refine (plain_answer_is_parsed_as_is (lit "{ never closed") _ _).
  - each_char.
  - right. each_char.
Defined.

(** ** The handler of [POST /chat] (lines 285-337 of the second file) *)

Ltac run_ai :=
  cbv beta iota zeta
    delta [Ai.bind Ai.try_catch Ai.made Ai.settle Ai.ret Ai.throw Ai.respond
           Ai.fetch Ai.response_text Ai.response_content_text Ai.JSON_parse
           Ai.upstream_failed negb].

Ltac chat_cases w body :=
  unfold Ai.chat_handler;
  destruct body as [[[[|? ?]|] ?]|]; cbn [Ai.message Ai.context]; run_ai;
  try (destruct (Ai.env_ANTHROPIC_API_KEY w) as [[|? ?]|]; run_ai);
  try match goal with
      | |- context [Ai.fetch_result w ?r] =>
          destruct (Ai.fetch_result w r) as [?|[[] ? [?|?] [?|?]]]; run_ai
      end;
  cbn [Ai.up_ok Ai.up_status Ai.up_text Ai.up_content_text fst snd app];
  run_ai.

Ltac answered_once :=
  match goal with
  | |- exists r pre, (inr ?R, ?L) = _ /\ _ =>
      exists R;
      match L with
      | (((?c ++ [?a0]) ++ [?a]) ++ [?b]) ++ [_] => exists [a0; a; b]
      | ((?c ++ [?a]) ++ [?b]) ++ [_] => exists [a; b]
      | (?c ++ [?a]) ++ [_] => exists [a]
      | ?c ++ [_] => exists []
      end;
      split; [rewrite <- ?app_assoc; reflexivity | reflexivity]
  end.

(** The upstream API is called only for a request with a message and with a
    configured key, once, with the key in the [x-api-key] header and, as
    content, the message, preceded by the context and a blank line when a
    context is given. *)
Theorem chat_calls_upstream_once (w : Ai.World) (body : option Ai.ChatBody) :
  List.filter Ai.is_fetch (snd (Ai.chat_handler w body []))
  = match body, Ai.env_ANTHROPIC_API_KEY w with
    | Some b, Some key =>
        match Ai.message b with
        | Some m =>
            if truthy m && truthy key
            then [Ai.CallFetch
                    (Ai.messages_request key (Ai.chat_messages m (Ai.context b)))]
            else []
        | None => []
        end
    | _, _ => []
    end.
Proof.
  chat_cases w body; try reflexivity.
  all: destruct (Ai.env_ANTHROPIC_API_KEY w) as [[|? ?]|]; reflexivity.
Qed.

(** A request without a message, or with an empty one, is answered 400, also
    when no key is configured; with a message but no key the answer is 500.
    Neither calls anything. *)
Theorem chat_validates_before_calling (w : Ai.World) (b : Ai.ChatBody)
    (calls : list Ai.call) :
  (Ai.present (Ai.message b) = false ->
     Ai.chat_handler w (Some b) calls
     = (inr (Ai.AiError 400 (lit "Message is required") None),
        calls ++ [Ai.CallRespond (Ai.AiError 400 (lit "Message is required") None)]))
  /\ (Ai.present (Ai.message b) = true ->
      Ai.present (Ai.env_ANTHROPIC_API_KEY w) = false ->
      Ai.chat_handler w (Some b) calls
      = (inr (Ai.AiError 500 (lit "Anthropic API key not configured") None),
         calls ++ [Ai.CallRespond
                     (Ai.AiError 500 (lit "Anthropic API key not configured") None)])).
Proof.
  split.
  - intros Hm. unfold Ai.chat_handler.
    destruct b as [[[|? ?]|] ?]; try discriminate; reflexivity.
  - intros Hm Hk. unfold Ai.chat_handler.
    destruct b as [[[|? ?]|] ?]; try discriminate. cbn [Ai.message].
    destruct (Ai.env_ANTHROPIC_API_KEY w) as [[|? ?]|]; try discriminate; reflexivity.
Qed.

(** When the upstream API answers with a status that is not [ok] and its
    body can be read, the client gets that same status, the body as details
    and the status again in the error text. *)
Theorem chat_relays_upstream_failure (w : Ai.World) (b : Ai.ChatBody)
    (m key errorText : jsstring) (u : Ai.Upstream) (calls : list Ai.call) :
  Ai.message b = Some m -> truthy m = true ->
  Ai.env_ANTHROPIC_API_KEY w = Some key -> truthy key = true ->
  Ai.fetch_result w (Ai.messages_request key (Ai.chat_messages m (Ai.context b)))
  = inr u ->
  Ai.up_ok u = false ->
  Ai.up_text u = inr errorText ->
  fst (Ai.chat_handler w (Some b) calls)
  = inr (Ai.AiError (Ai.up_status u)
           (lit "Anthropic API failed: " ++ of_nat (Ai.up_status u))
           (Some errorText)).
Proof.
  intros Hm Tm Hk Tk Hf Hok Ht.
  unfold Ai.chat_handler.
  rewrite Hm, Hk. destruct m as [|c m]; [discriminate|].
  destruct key as [|k key]; [discriminate|]. run_ai.
  unfold Ai.chat_messages in Hf. rewrite Hf. run_ai. rewrite Hok. run_ai.
  rewrite Ht. reflexivity.
Qed.

(** The handler answers with [success: true] exactly when there are a
    message and a key, the upstream call resolves with an [ok] response and the
    reply text can be read from its body; the reply is returned as it is. *)
Theorem chat_success_iff (w : Ai.World) (body : option Ai.ChatBody)
    (calls : list Ai.call) (reply : option json) :
  fst (Ai.chat_handler w body calls) = inr (Ai.ChatOk reply)
  <-> exists b m key u,
        body = Some b
        /\ Ai.message b = Some m /\ truthy m = true
        /\ Ai.env_ANTHROPIC_API_KEY w = Some key /\ truthy key = true
        /\ Ai.fetch_result w
             (Ai.messages_request key (Ai.chat_messages m (Ai.context b))) = inr u
        /\ Ai.up_ok u = true
        /\ Ai.up_content_text u = inr reply.
Proof.
  split.
  - unfold Ai.chat_handler.
    destruct body as [[[[|c m]|] ctx]|]; cbn [Ai.message Ai.context]; run_ai;
      cbn [fst]; try discriminate.
    destruct (Ai.env_ANTHROPIC_API_KEY w) as [[|k key]|] eqn:Hk; run_ai;
      cbn [fst]; try discriminate.
    destruct (Ai.fetch_result w _) as [e|u] eqn:Hf; run_ai; cbn [fst];
      [discriminate|].
    destruct (Ai.up_ok u) eqn:Hok; run_ai.
    + destruct (Ai.up_content_text u) as [e|v] eqn:Hv; run_ai; cbn [fst];
        [discriminate|].
      intros [= <-]. exists (Ai.mkChatBody (Some (c :: m)) ctx), (c :: m), (k :: key), u.
      repeat split; assumption.
    + destruct (Ai.up_text u); run_ai; cbn [fst]; discriminate.
  - intros (b & m & key & u & -> & Hm & Tm & Hk & Tk & Hf & Hok & Hv).
    unfold Ai.chat_handler.
    rewrite Hm, Hk. destruct m as [|c m]; [discriminate|].
    destruct key as [|k key]; [discriminate|]. run_ai.
    unfold Ai.chat_messages in Hf. rewrite Hf. run_ai. rewrite Hok. run_ai.
    rewrite Hv. reflexivity.
Qed.

(** Whatever happens the handler raises nothing and answers once, as its
    last call. *)
Theorem chat_answers_once (w : Ai.World) (body : option Ai.ChatBody)
    (calls : list Ai.call) :
  exists r pre,
    Ai.chat_handler w body calls = (inr r, calls ++ pre ++ [Ai.CallRespond r])
    /\ forallb (fun c => negb (Ai.is_respond c)) pre = true.
Proof.
  chat_cases w body; answered_once.
Qed.

Lemma chat_relays_upstream_failure_witness :
  fst (Ai.chat_handler (AiSamples.world (Some AiSamples.key) (inr AiSamples.overloaded))
         (Some AiSamples.hello) [])
  = inr (Ai.AiError (Ai.up_status AiSamples.overloaded)
           (lit "Anthropic API failed: " ++ of_nat (Ai.up_status AiSamples.overloaded))
           (Some (lit "overloaded"))).
Proof.
  refine (chat_relays_upstream_failure
            (AiSamples.world (Some AiSamples.key) (inr AiSamples.overloaded))
            AiSamples.hello (lit "hello") AiSamples.key (lit "overloaded")
            AiSamples.overloaded [] _ _ _ _ _ _ _); reflexivity.
Defined.

(** ** The handler of [POST /extract-concepts] (lines 169-282 of the second file) *)

Ltac concepts_cases w body :=
  unfold Ai.extract_concepts_handler;
  destruct body as [[[[|? ?]|] [[|? ?]|]]|]; cbn [Ai.text Ai.fileName]; run_ai;
  try (destruct (Ai.env_ANTHROPIC_API_KEY w) as [[|? ?]|]; run_ai);
  try match goal with
      | |- context [Ai.fetch_result w ?r] =>
          destruct (Ai.fetch_result w r) as [?|[[] ? [?|?] [?|?]]]; run_ai
      end;
  cbn [Ai.up_ok Ai.up_status Ai.up_text Ai.up_content_text fst snd app];
  run_ai.

Ltac parse_cases w :=
  unfold Ai.parse_concepts; run_ai;
  try match goal with
      | |- context [match ?v with Some _ => _ | None => _ end] =>
          destruct v as [[| | |?s| |]|]; run_ai
      end;
  try match goal with
      | |- context [Ai.json_parse w ?s] =>
          destruct (Ai.json_parse w s) as [?|[| | | | |]]; run_ai
      end.

(** The upstream API is called only for a request with a text and a file
    name and with a configured key, once, with the prompt built from both. *)
Theorem concepts_calls_upstream_once (w : Ai.World) (body : option Ai.ConceptsBody) :
  List.filter Ai.is_fetch (snd (Ai.extract_concepts_handler w body []))
  = match body, Ai.env_ANTHROPIC_API_KEY w with
    | Some b, Some key =>
        match Ai.text b, Ai.fileName b with
        | Some t, Some n =>
            if truthy t && truthy n && truthy key
            then [Ai.CallFetch
                    (Ai.messages_request key (Ai.concepts_messages n t))]
            else []
        | _, _ => []
        end
    | _, _ => []
    end.
Proof.
  concepts_cases w body; try reflexivity.
  all: try (destruct (Ai.env_ANTHROPIC_API_KEY w) as [[|? ?]|]; reflexivity).
  all: parse_cases w; reflexivity.
Qed.

(** A request that lacks the text or the file name (absent or empty) is
    answered 400, also when no key is configured; with both but no key the
    answer is 500.  Neither calls anything. *)
Theorem concepts_validates_before_calling (w : Ai.World) (b : Ai.ConceptsBody)
    (calls : list Ai.call) :
  (Ai.present (Ai.text b) && Ai.present (Ai.fileName b) = false ->
     Ai.extract_concepts_handler w (Some b) calls
     = (inr (Ai.AiError 400 (lit "Text and fileName are required") None),
        calls ++ [Ai.CallRespond
                    (Ai.AiError 400 (lit "Text and fileName are required") None)]))
  /\ (Ai.present (Ai.text b) && Ai.present (Ai.fileName b) = true ->
      Ai.present (Ai.env_ANTHROPIC_API_KEY w) = false ->
      Ai.extract_concepts_handler w (Some b) calls
      = (inr (Ai.AiError 500 (lit "Anthropic API key not configured") None),
         calls ++ [Ai.CallRespond
                     (Ai.AiError 500 (lit "Anthropic API key not configured") None)])).
Proof.
  split.
  - intros Hm. unfold Ai.extract_concepts_handler.
    destruct b as [[[|? ?]|] [[|? ?]|]]; try discriminate; reflexivity.
  - intros Hm Hk. unfold Ai.extract_concepts_handler.
    destruct b as [[[|? ?]|] [[|? ?]|]]; try discriminate. cbn [Ai.text Ai.fileName].
    destruct (Ai.env_ANTHROPIC_API_KEY w) as [[|? ?]|]; try discriminate; reflexivity.
Qed.

Section ConceptsFacts.

Lemma concepts_pair (c : option json) :
  truthy_json (or_empty_array c) = true
  /\ (forall items, or_empty_array c = JArray items ->
                    length_or_0 c = Count (length items))
  /\ (forall s, or_empty_array c = JString s -> length_or_0 c = Count (length s)).
Proof.
  unfold or_empty_array. destruct c as [v|].
  - destruct (truthy_json v) eqn:E.
    + split; [exact E|]. split; intros ? ->; reflexivity.
    + split; [reflexivity|]. split; intros ? H; [|discriminate H].
      injection H as <-.
      destruct v as [|b|x|[|c s]|items|fields]; try discriminate E; reflexivity.
  - split; [reflexivity|]. split; intros ? H; [|discriminate H].
    injection H as <-. reflexivity.
Qed.

End ConceptsFacts.

(** In a success payload [concepts] is never a falsy value, and when it is an
    array (or a string) [totalConcepts] is its length. *)
Theorem totalConcepts_counts_concepts (w : Ai.World) (body : option Ai.ConceptsBody)
    (calls : list Ai.call) (c : json) (t : total) :
  fst (Ai.extract_concepts_handler w body calls) = inr (Ai.ConceptsOk c t) ->
  truthy_json c = true
  /\ (forall items, c = JArray items -> t = Count (length items))
  /\ (forall s, c = JString s -> t = Count (length s)).
Proof.
  concepts_cases w body; cbn [fst]; try discriminate.
  all: parse_cases w; cbn [fst]; try discriminate.
  all: match goal with
       | |- inr (Ai.ConceptsOk (or_empty_array ?x) _) = _ -> _ =>
           pose proof (concepts_pair x) as P; intros [= <- <-]; exact P
       end.
Qed.

Lemma totalConcepts_counts_concepts_witness :
  truthy_json (JArray [JString (lit "one"); JString (lit "two")]) = true
  /\ (forall items,
        JArray [JString (lit "one"); JString (lit "two")] = JArray items ->
        Count 2 = Count (length items))
  /\ (forall s,
        JArray [JString (lit "one"); JString (lit "two")] = JString s ->
        Count 2 = Count (length s)).
Proof.
  refine (totalConcepts_counts_concepts
            (AiSamples.world (Some AiSamples.key)
               (inr (AiSamples.answering
                       (fence ++ lit "json" ++ LF ++ AiSamples.sample_payload
                          ++ LF ++ fence))))
            (Some AiSamples.lecture) [] _ _ _).
  vm_compute. reflexivity.
Defined.

(** Once the upstream API has answered [ok], what goes wrong is told apart:
    an answer whose reply text cannot be read is a failed concept extraction,
    while a reply that is not a string, that [JSON.parse] rejects or that
    parses to [null] is a failure to parse, each with the error's message;
    anything else that parses is a success. *)
Theorem concepts_outcomes_after_ok (w : Ai.World) (b : Ai.ConceptsBody)
    (t n key : jsstring) (u : Ai.Upstream) (calls : list Ai.call) :
  Ai.text b = Some t -> truthy t = true ->
  Ai.fileName b = Some n -> truthy n = true ->
  Ai.env_ANTHROPIC_API_KEY w = Some key -> truthy key = true ->
  Ai.fetch_result w (Ai.messages_request key (Ai.concepts_messages n t)) = inr u ->
  Ai.up_ok u = true ->
  fst (Ai.extract_concepts_handler w (Some b) calls)
  = inr match Ai.up_content_text u with
        | inl e => Ai.AiError 500 (lit "Concept extraction failed") (Some e)
        | inr (Some (JString s)) =>
            match Ai.json_parse w (extract_json (trim s)) with
            | inl e => Ai.AiError 500 (lit "Failed to parse AI response") (Some e)
            | inr JNull =>
                Ai.AiError 500 (lit "Failed to parse AI response")
                  (Some (Ai.null_property_error w))
            | inr parsed =>
                Ai.ConceptsOk (or_empty_array (dot_concepts parsed))
                  (length_or_0 (dot_concepts parsed))
            end
        | inr other =>
            Ai.AiError 500 (lit "Failed to parse AI response")
              (Some (Ai.trim_error w other))
        end.
Proof.
  intros Ht Tt Hn Tn Hk Tk Hf Hok.
  unfold Ai.extract_concepts_handler. rewrite Ht, Hn, Hk.
  destruct t as [|c t]; [discriminate|]. destruct n as [|d n]; [discriminate|].
  destruct key as [|k key]; [discriminate|]. run_ai.
  unfold Ai.concepts_messages in Hf. rewrite Hf. run_ai. rewrite Hok. run_ai.
  destruct (Ai.up_content_text u) as [e|v]; run_ai; [reflexivity|].
  unfold Ai.parse_concepts. run_ai.
  destruct v as [[| | |s| |]|]; run_ai; try reflexivity.
  destruct (Ai.json_parse w (extract_json (trim s))) as [e|[| | | | |]]; run_ai;
    reflexivity.
Qed.

Lemma concepts_outcomes_after_ok_witness :
  fst (Ai.extract_concepts_handler
         (AiSamples.world (Some AiSamples.key)
            (inr (AiSamples.answering (lit "I cannot help with that"))))
         (Some AiSamples.lecture) [])
  = inr (Ai.AiError 500 (lit "Failed to parse AI response")
           (Some (lit "Unexpected token"))).
Proof.
  refine (concepts_outcomes_after_ok
            (AiSamples.world (Some AiSamples.key)
               (inr (AiSamples.answering (lit "I cannot help with that"))))
            AiSamples.lecture (lit "Sorting is ...") (lit "week1.pdf") AiSamples.key
            (AiSamples.answering (lit "I cannot help with that")) []
            _ _ _ _ _ _ _ _); reflexivity.
Defined.

(** Whatever happens the handler raises nothing and answers once, as its
    last call. *)
Theorem concepts_answers_once (w : Ai.World) (body : option Ai.ConceptsBody)
    (calls : list Ai.call) :
  exists r pre,
    Ai.extract_concepts_handler w body calls
    = (inr r, calls ++ pre ++ [Ai.CallRespond r])
    /\ forallb (fun c => negb (Ai.is_respond c)) pre = true.
Proof.
  concepts_cases w body; try answered_once.
  all: parse_cases w; answered_once.
Qed.

(** With a message and a key, every promise that rejects ends in a 500 that
    carries the error's message: the upstream call, the reading of an error
    body, the reading of the reply.  So does a request without a body. *)
Theorem chat_reports_rejections (w : Ai.World) (b : Ai.ChatBody) (m key : jsstring)
    (calls : list Ai.call) :
  Ai.message b = Some m -> truthy m = true ->
  Ai.env_ANTHROPIC_API_KEY w = Some key -> truthy key = true ->
  let failed e := inr (Ai.AiError 500 (lit "Chat failed") (Some e)) in
  let request := Ai.messages_request key (Ai.chat_messages m (Ai.context b)) in
  (forall e, Ai.fetch_result w request = inl e ->
             fst (Ai.chat_handler w (Some b) calls) = failed e)
  /\ (forall u e, Ai.fetch_result w request = inr u ->
                  Ai.up_ok u = false -> Ai.up_text u = inl e ->
                  fst (Ai.chat_handler w (Some b) calls) = failed e)
  /\ (forall u e, Ai.fetch_result w request = inr u ->
                  Ai.up_ok u = true -> Ai.up_content_text u = inl e ->
                  fst (Ai.chat_handler w (Some b) calls) = failed e)
  /\ fst (Ai.chat_handler w None calls) = failed (Ai.destructure_error w).
Proof.
  intros Hm Tm Hk Tk failed request. subst failed request.
  unfold Ai.chat_handler. rewrite Hm, Hk.
  destruct m as [|c m]; [discriminate|]. destruct key as [|k key]; [discriminate|].
  unfold Ai.chat_messages. run_ai.
  repeat split.
  - intros e ->. reflexivity.
  - intros u e -> Hok He. run_ai. rewrite Hok. run_ai. rewrite He. reflexivity.
  - intros u e -> Hok He. run_ai. rewrite Hok. run_ai. rewrite He. reflexivity.
Qed.

Lemma chat_reports_rejections_witness :
  fst (Ai.chat_handler (AiSamples.world (Some AiSamples.key) (inl (lit "ECONNRESET")))
         (Some AiSamples.hello) [])
  = inr (Ai.AiError 500 (lit "Chat failed") (Some (lit "ECONNRESET"))).
Proof.
  refine (proj1 (chat_reports_rejections
                   (AiSamples.world (Some AiSamples.key) (inl (lit "ECONNRESET")))
                   AiSamples.hello (lit "hello") AiSamples.key [] _ _ _ _)
            (lit "ECONNRESET") _); reflexivity.
Defined.

Section BlankWrapped.

Lemma trimStart_blanks (a s : jsstring) :
  Forall (fun c => is_ws c = true) a -> trimStart (a ++ s) = trimStart s.
Proof.
  intros H. induction H as [|c a Hc _ IH]; [reflexivity|].
  cbn [app trimStart]. rewrite Hc. exact IH.
Qed.

(** Trimming takes the blanks around a tidy string away, and only them. *)
Lemma trim_blank_wrapped (a x b : jsstring) :
  Forall (fun c => is_ws c = true) a ->
  Forall (fun c => is_ws c = true) b ->
  tidy x ->
  trim (a ++ x ++ b) = x.
Proof.
  intros Ha Hb (Hne & Hl & Ht). unfold trim.
  rewrite (trimStart_blanks a _ Ha).
  assert (E : trimStart (x ++ b) = x ++ b).
  { apply trimStart_fixed. destruct x; [congruence | exact Hl]. }
  rewrite E. unfold trimEnd. rewrite rev_app_distr.
  rewrite (trimStart_blanks (rev b) _ (Forall_rev Hb)).
  rewrite (trimStart_fixed _ Ht). apply rev_involutive.
Qed.

End BlankWrapped.

(** End to end: when the upstream reply is a fenced block, with blanks around
    it at most, the handler hands the payload alone to [JSON.parse]; if that
    gives an object whose [concepts] is an array, the array is returned as it is
    with its length as [totalConcepts]. *)
Theorem fenced_reply_is_parsed_and_counted (w : Ai.World) (b : Ai.ConceptsBody)
    (t n key : jsstring) (u : Ai.Upstream)
    (a ws1 p ws2 z : jsstring) (fields : list (jsstring * json)) (items : list json) :
  Ai.text b = Some t -> truthy t = true ->
  Ai.fileName b = Some n -> truthy n = true ->
  Ai.env_ANTHROPIC_API_KEY w = Some key -> truthy key = true ->
  Ai.fetch_result w (Ai.messages_request key (Ai.concepts_messages n t)) = inr u ->
  Ai.up_ok u = true ->
  Ai.up_content_text u
  = inr (Some (JString (a ++ (fence ++ lit "json" ++ ws1 ++ p ++ ws2 ++ fence) ++ z))) ->
  Forall (fun c => is_ws c = true) a -> Forall (fun c => is_ws c = true) z ->
  Forall (fun c => is_ws c = true) ws1 -> Forall (fun c => is_ws c = true) ws2 ->
  tidy p -> Forall (fun c => c <> backtick) p ->
  Ai.json_parse w p = inr (JObject fields) ->
  own_property fields (lit "concepts") = Some (JArray items) ->
  fst (Ai.extract_concepts_handler w (Some b) [])
  = inr (Ai.ConceptsOk (JArray items) (Count (length items)))
  /\ List.filter Ai.is_parse (snd (Ai.extract_concepts_handler w (Some b) []))
     = [Ai.CallJsonParse p].
Proof.
  intros Ht Tt Hn Tn Hk Tk Hf Hok Hreply Ha Hz Hws1 Hws2 Hp Hbt Hparse Hconcepts.
  assert (Hx : extract_json
                 (trim (a ++ (fence ++ lit "json" ++ ws1 ++ p ++ ws2 ++ fence) ++ z))
               = p).
  { rewrite (trim_blank_wrapped a _ z Ha Hz).
    - pose proof (match_at_fenced ws1 p ws2 [] Hws1 Hws2 Hp Hbt) as Hm.
      rewrite app_nil_r in Hm. unfold extract_json.
      rewrite (js_match_here _ _ _ Hm).
      destruct Hp as (Hne & _). destruct p; [congruence | reflexivity].
    - replace (fence ++ lit "json" ++ ws1 ++ p ++ ws2 ++ fence)
        with (fence ++ (lit "json" ++ ws1 ++ p ++ ws2) ++ fence)
        by (rewrite <- !app_assoc; reflexivity).
      apply tidy_app; repeat split; discriminate. }
  unfold Ai.extract_concepts_handler. rewrite Ht, Hn, Hk.
  destruct t as [|c t]; [discriminate|]. destruct n as [|d n]; [discriminate|].
  destruct key as [|k key]; [discriminate|]. run_ai.
  unfold Ai.concepts_messages in Hf. rewrite Hf. run_ai. rewrite Hok. run_ai.
  rewrite Hreply. unfold Ai.parse_concepts. run_ai. rewrite Hx, Hparse. run_ai.
  cbn [dot_concepts]. rewrite Hconcepts. split; reflexivity.
Qed.

Lemma fenced_reply_is_parsed_and_counted_witness :
  fst (Ai.extract_concepts_handler
         (AiSamples.world (Some AiSamples.key)
            (inr (AiSamples.answering
                    (LF ++ (fence ++ lit "json" ++ LF ++ AiSamples.sample_payload
                              ++ LF ++ fence) ++ LF))))
         (Some AiSamples.lecture) [])
  = inr (Ai.ConceptsOk (JArray [JString (lit "one"); JString (lit "two")])
           (Count (length [JString (lit "one"); JString (lit "two")]))).
Proof.
  refine (proj1 (fenced_reply_is_parsed_and_counted
                   (AiSamples.world (Some AiSamples.key)
                      (inr (AiSamples.answering
                              (LF ++ (fence ++ lit "json" ++ LF
                                        ++ AiSamples.sample_payload ++ LF ++ fence)
                                  ++ LF))))
                   AiSamples.lecture (lit "Sorting is ...") (lit "week1.pdf")
                   AiSamples.key
                   (AiSamples.answering
                      (LF ++ (fence ++ lit "json" ++ LF ++ AiSamples.sample_payload
                                ++ LF ++ fence) ++ LF))
                   LF LF AiSamples.sample_payload LF LF
                   [(lit "concepts", JArray [JString (lit "one"); JString (lit "two")])]
                   [JString (lit "one"); JString (lit "two")]
                   _ _ _ _ _ _ _ _ _ _ _ _ _ _ _ _ _));
    try reflexivity; each_char.
Defined.
